(** * Django-ecommerce-api: the representation layer and the resource
      controllers of [api/serializers.py] and [api/views.py]

    The development embeds the serializers and viewsets of the API in Rocq.
    Python exceptions are the left summand of a result type, the persistent
    store is an explicit record of tables threaded through every operation,
    dictionaries of request data are finite maps, and querysets are the lists
    of rows they evaluate to.

    Part I holds the model, one module per Python class. Part II holds the
    lemmas and theorems. *)

From Stdlib Require Import ZArith List Bool Lia.
From stdpp Require Import base option list strings gmap fin_maps.

Import ListNotations.
Set Warnings "-register-all".
Local Open Scope string_scope.
Local Open Scope list_scope.
Local Open Scope Z_scope.

(* ===================================================================== *)
(** * Part I. The model                                                   *)
(* ===================================================================== *)

(** ** Python exceptions and results *)

(** The exceptions that the two source files raise or let escape. *)
Inductive exception : Type :=
| ValidationError (detail : string)      (* rest_framework.serializers *)
| NameError (name : string)              (* unbound global name *)
| AttributeError (detail : string)       (* attribute of None *)
| KeyError (key : string)                (* dict[key] on a missing key *)
| TypeError (detail : string)            (* unexpected keyword argument *)
| DoesNotExist (model : string)          (* Model.DoesNotExist *)
| MultipleObjectsReturned (model : string)
| IntegrityError
| Http404
| NotAuthenticated
| PermissionDenied.

(** A computation either raises or returns. *)
Definition result (A : Type) : Type := exception + A.

Definition ret {A} (a : A) : result A := inr a.
Definition raise {A} (e : exception) : result A := inl e.

Definition bind {A B} (c : result A) (k : A -> result B) : result B :=
  match c with
  | inl e => inl e
  | inr a => k a
  end.

Notation "'let*' x ':=' c 'in' k" := (bind c (fun x => k))
  (at level 10, x name, c at level 100, k at level 200).

Definition raises {A} (c : result A) (e : exception) : Prop := c = inl e.
Definition returns {A} (c : result A) (a : A) : Prop := c = inr a.

Definition is_ok {A} (c : result A) : bool :=
  match c with inr _ => true | inl _ => false end.

(** ** Wire values *)

(** JSON-like values of request bodies and response representations. *)
Inductive value : Type :=
| VNull
| VBool (b : bool)
| VInt (z : Z)
| VStr (s : string)
| VList (l : list value)
| VDict (d : list (string * value)).

(** A rendered dictionary keeps the order of the serializer's fields. *)
Definition dict_keys (d : list (string * value)) : list string := map fst d.

Definition is_bare_identifier (v : value) : bool :=
  match v with VInt _ => true | _ => false end.

(** ** Stored records *)

(** Modelled from the spec: [api/models.py] is not among the sources. Each
    record carries the columns that the serializers, the viewsets and the
    spec's data model name; foreign keys are stored as the primary key of
    the row they reference. *)
Record User : Type := mkUser {
  user_id : Z;
  email : string;
  password : string;
  is_active : bool;
  is_staff : bool;
  is_vendor : bool
}.

Record Product : Type := mkProduct {
  product_id : Z;
  name : string;
  brand : string;
  price : Z;
  is_available : bool;
  product_quantity : Z;
  description : string;
  vendor : Z
}.

Record Size : Type := mkSize {
  size_id : Z;
  variant : Z;               (* Product the size belongs to *)
  size : string;
  size_quantity : Z;
  size_is_available : bool
}.

Record Vendor : Type := mkVendor {
  vendor_id : Z;
  vendor_columns : gmap string value   (* keyword arguments of the row *)
}.

Record Order : Type := mkOrder {
  order_id : Z;
  order_user : Z;
  order_cart : Z
}.

(** The persistent store: one table per model, rows in insertion order. *)
Record DB : Type := mkDB {
  users : list User;
  products : list Product;
  sizes : list Size;
  vendors : list Vendor;
  orders : list Order;
  size_chart : list string        (* the [name] column of SizeChart *)
}.

Definition set_users (us : list User) (db : DB) : DB :=
  mkDB us (products db) (sizes db) (vendors db) (orders db) (size_chart db).

Definition set_sizes (ss : list Size) (db : DB) : DB :=
  mkDB (users db) (products db) ss (vendors db) (orders db) (size_chart db).

Definition set_vendors (vs : list Vendor) (db : DB) : DB :=
  mkDB (users db) (products db) (sizes db) vs (orders db) (size_chart db).

(** ** Querysets *)

Section QuerySet.
Context {R : Type}.
Variable pk : R -> Z.
Variable model : string.

(** [queryset.get(pk=k)]: the single matching row, [DoesNotExist] when
    there is none, [MultipleObjectsReturned] when there are several. *)
Definition queryset_get (qs : list R) (k : Z) : result R :=
  match List.filter (fun r => pk r =? k) qs with
  | [] => raise (DoesNotExist model)
  | [r] => ret r
  | _ :: _ :: _ => raise (MultipleObjectsReturned model)
  end.

(** [queryset.exclude(id=k)]. *)
Definition queryset_exclude (qs : list R) (k : Z) : list R :=
  List.filter (fun r => negb (pk r =? k)) qs.

(** [get_object_or_404]: only [DoesNotExist] becomes a 404. *)
Definition get_object_or_404 (qs : list R) (k : Z) : result R :=
  match queryset_get qs k with
  | inl (DoesNotExist _) => raise Http404
  | other => other
  end.

(** [instance.save()] of a row that exists: the row with the same primary
    key is overwritten in place. *)
Definition save_row (r : R) (rows : list R) : list R :=
  map (fun old => if pk old =? pk r then r else old) rows.

(** The primary key an insert assigns: one more than the largest so far. *)
Definition next_pk (rows : list R) : Z :=
  1 + fold_right Z.max 0 (map pk rows).
End QuerySet.

(** [sum([...])] over integers. *)
Definition sum (l : list Z) : Z := fold_right Z.add 0 l.

(* --------------------------------------------------------------------- *)
(** ** [api/serializers.py]                                               *)
(* --------------------------------------------------------------------- *)

(** *** The module namespace *)

(** What a global name of the module is bound to. *)
Inductive global : Type :=
| GModule (path : string)      (* [from rest_framework import serializers] *)
| GModel (model : string)      (* a class imported from [.models] *)
| GClass (cls : string).       (* a class defined in the file itself *)

(** The names bound at module level: the two import statements (lines
    1-13) and the twelve class statements of the file. No builtin is called
    [SizeChart], so a name outside this list is unbound. *)
Definition serializers_globals : list (string * global) :=
  [ ("serializers", GModule "rest_framework.serializers");
    ("Size", GModel "Size"); ("OrderItem", GModel "OrderItem");
    ("Image", GModel "Image"); ("Review", GModel "Review");
    ("User", GModel "User"); ("Category", GModel "Category");
    ("Cart", GModel "Cart"); ("Product", GModel "Product");
    ("Order", GModel "Order"); ("Vendor", GModel "Vendor");
    ("DynamicModelSerializer", GClass "DynamicModelSerializer");
    ("CustomRelatedField", GClass "CustomRelatedField");
    ("ImageSerializer", GClass "ImageSerializer");
    ("ProductSerializer", GClass "ProductSerializer");
    ("CategorySerializer", GClass "CategorySerializer");
    ("SizeSerializer", GClass "SizeSerializer");
    ("VendorSerializer", GClass "VendorSerializer");
    ("ReviewSerializer", GClass "ReviewSerializer");
    ("OrderItemSerializer", GClass "OrderItemSerializer");
    ("CartSerializer", GClass "CartSerializer");
    ("UserSerializer", GClass "UserSerializer");
    ("OrderSerializer", GClass "OrderSerializer") ].

(** Evaluating a global name: [NameError] when it is unbound. *)
Definition load_global (g : list (string * global)) (x : string)
  : result global :=
  match List.find (fun b => String.eqb (fst b) x) g with
  | Some b => ret (snd b)
  | None => raise (NameError x)
  end.

(** [M.objects.values_list("name", flat=True)]. Of the models in the store
    only the size vocabulary has a [name] column to flatten. *)
Definition values_list_name (db : DB) (m : global) : result (list string) :=
  match m with
  | GModel "SizeChart" => ret (size_chart db)
  | _ => raise (AttributeError "objects")
  end.

(** *** rest_framework.serializers.ModelSerializer *)

(** [class Meta]: [meta_fields = None] stands for ["__all__"]. *)
Record Meta : Type := mkMeta {
  meta_fields : option (list string);
  meta_exclude : option (list string)
}.

(** The parts of a model's field info that name its serializer fields. *)
Record ModelInfo : Type := mkModelInfo {
  info_pk : string;
  info_fields : list string;
  info_forward_relations : list string
}.

(** [list.remove(x)]: drops the first occurrence. *)
Fixpoint list_remove (x : string) (l : list string) : list string :=
  match l with
  | [] => []
  | y :: l' => if String.eqb y x then l' else y :: list_remove x l'
  end.

Module ModelSerializer.

Definition get_default_field_names (declared : list string)
    (info : ModelInfo) : list string :=
  [info_pk info] ++ declared ++ info_fields info
    ++ info_forward_relations info.

(** The framework's [get_field_names]: an explicit [Meta.fields] is used
    as it is; otherwise the default names, less each name of
    [Meta.exclude]. *)
Definition get_field_names (meta : Meta) (declared : list string)
    (info : ModelInfo) : list string :=
  match meta_fields meta with
  | Some fields => fields
  | None =>
      let fields := get_default_field_names declared info in
      match meta_exclude meta with
      | Some exclude =>
          fold_left (fun fs x => list_remove x fs) exclude fields
      | None => fields
      end
  end.

(** [validate(attrs)] of the base class returns [attrs]. *)
Definition validate {A} (attrs : A) : result A := ret attrs.

End ModelSerializer.

(** [serializer.data]: one entry per field name, in order, holding the
    instance's attribute of that name. *)
Fixpoint serializer_data {R} (getattr : R -> string -> result value)
    (field_names : list string) (instance : R)
  : result (list (string * value)) :=
  match field_names with
  | [] => ret []
  | f :: fs =>
      let* v := getattr instance f in
      let* rest := serializer_data getattr fs instance in
      ret ((f, v) :: rest)
  end.

(** *** DynamicModelSerializer (lines 16-31) *)

Module DynamicModelSerializer.

(** [field_names] is what [super().get_field_names] returned;
    [dynamic_fields] is the [fields] keyword popped by [__init__]. *)
Definition get_field_names (field_names : list string)
    (dynamic_fields : option (list string)) : list string :=
  match dynamic_fields with
  | Some fields =>
      let allowed : gset string := list_to_set fields in
      let excluded_field_names : gset string :=
        list_to_set field_names ∖ allowed in
      List.filter (fun x => bool_decide (x ∉ excluded_field_names))
        field_names
  | None => field_names
  end.

End DynamicModelSerializer.

(** *** ProductSerializer (lines 60-69) *)

Module ProductSerializer.

Definition meta : Meta :=
  mkMeta None (Some ["description"; "quantity"; "customers"]).

(** Modelled from the spec: the fields of the [Product] model, which
    [api/models.py] declares. They are the columns of the data model plus
    the [customers] relation that [Meta.exclude] names. *)
Definition info : ModelInfo :=
  mkModelInfo "id"
    ["name"; "brand"; "price"; "is_available"; "quantity"; "description"]
    ["vendor"; "customers"].

Definition get_custom_fields : list string :=
  ["id"; "name"; "is_available"; "brand"; "price"].

(** The serializer's field names when built with [fields=dynamic_fields]. *)
Definition get_field_names (dynamic_fields : option (list string))
  : list string :=
  DynamicModelSerializer.get_field_names
    (ModelSerializer.get_field_names meta [] info) dynamic_fields.

(** Attribute access on a [Product] row, rendered by the field. *)
Definition getattr (p : Product) (f : string) : result value :=
  match f with
  | "id" => ret (VInt (product_id p))
  | "name" => ret (VStr (name p))
  | "brand" => ret (VStr (brand p))
  | "price" => ret (VInt (price p))
  | "is_available" => ret (VBool (is_available p))
  | "quantity" => ret (VInt (product_quantity p))
  | "description" => ret (VStr (description p))
  | "vendor" => ret (VInt (vendor p))
  | _ => raise (AttributeError f)
  end.

(** [ProductSerializer(instance=p, fields=dynamic_fields).data]. *)
Definition data (dynamic_fields : option (list string)) (p : Product)
  : result value :=
  let* d := serializer_data getattr (get_field_names dynamic_fields) p in
  ret (VDict d).

End ProductSerializer.

(** *** CustomRelatedField (lines 34-46) *)

Module CustomRelatedField.
Section Field.
Context {R : Type}.
Variable pk : R -> Z.
Variable model : string.
(** [self.queryset], evaluated against the store. *)
Variable queryset : DB -> list R.
(** [self.serializer]: its [.data] for a field list and an instance,
    and its [get_custom_fields()]. *)
Variable serializer : option (list string) -> R -> result value.
Variable get_custom_fields : list string.

Definition to_internal_value (db : DB) (data : Z) : result R :=
  queryset_get pk model (queryset db) data.

Definition to_representation (v : R) : result value :=
  serializer (Some get_custom_fields) v.
End Field.
End CustomRelatedField.

(** *** OrderItemSerializer (lines 134-147): the [product] field *)

Module OrderItemSerializer.

Definition product_to_internal_value : DB -> Z -> result Product :=
  CustomRelatedField.to_internal_value product_id "Product" products.

Definition product_to_representation : Product -> result value :=
  CustomRelatedField.to_representation ProductSerializer.data
    ProductSerializer.get_custom_fields.

Definition get_custom_fields : list string := ["product"; "quantity"].

End OrderItemSerializer.

(** *** SizeSerializer (lines 83-113) *)

(** The validated attributes handed to [validate]: a key is absent when the
    request did not write the field. [attr_variant] holds the [Product]
    instance that the relation field resolved. *)
Record SizeAttrs : Type := mkSizeAttrs {
  attr_variant : option Product;
  attr_size : option string;
  attr_quantity : option Z;
  attr_is_available : option bool
}.

(** Modelled from the spec: the column defaults of the [Size] model, which
    [api/models.py] declares. A column without a default cannot be left
    out of an insert. *)
Record SizeDefaults : Type := mkSizeDefaults {
  default_size : option string;
  default_quantity : option Z;
  default_is_available : option bool
}.

Module SizeSerializer.

(** [validate_size] in a module namespace [g] (lines 89-92). *)
Definition validate_size_in (g : list (string * global)) (db : DB)
    (v : string) : result string :=
  let* chart := load_global g "SizeChart" in
  let* names := values_list_name db chart in
  if negb (existsb (String.eqb v) names)
  then raise (ValidationError "Invalid value for size")
  else ret v.

(** The method as the file defines it: names resolve in the file's own
    namespace. *)
Definition validate_size : DB -> string -> result string :=
  validate_size_in serializers_globals.

(** [variant.sizes.all()]: the rows of the reverse relation. *)
Definition variant_sizes (db : DB) (v : Product) : list Size :=
  List.filter (fun s => variant s =? product_id v) (sizes db).

(** [self.instance.variant]: the row behind the foreign key. *)
Definition instance_variant (db : DB) (instance : option Size)
  : result Product :=
  match instance with
  | Some i => queryset_get product_id "Product" (products db) (variant i)
  | None => raise (AttributeError "'NoneType' object has no attribute 'variant'")
  end.

(** [attrs.get("variant", None) or self.instance.variant]: the written
    variant, else the one the instance has. *)
Definition variant_or_instance (db : DB) (instance : option Size)
    (attrs : SizeAttrs) : result Product :=
  match attr_variant attrs with
  | Some v => ret v
  | None => instance_variant db instance
  end.

Definition inventory_message : string :=
  "You cannot have more sizes for a product variant than product variant itself.".

(** [validate] (lines 94-109). [instance] is [self.instance]: [None] on
    create, the row being written on update. A quantity is truthy when it
    is present and not zero. *)
Definition validate (db : DB) (instance : option Size) (attrs : SizeAttrs)
  : result SizeAttrs :=
  match attr_quantity attrs with
  | Some quantity =>
      if quantity =? 0 then ModelSerializer.validate attrs
      else
        let* variant := variant_or_instance db instance attrs in
        let queryset :=
          match instance with
          | Some i => queryset_exclude size_id (variant_sizes db variant)
                        (size_id i)
          | None => variant_sizes db variant
          end in
        if sum (map size_quantity queryset) + quantity >? product_quantity variant
        then raise (ValidationError inventory_message)
        else ModelSerializer.validate attrs
  | None => ModelSerializer.validate attrs
  end.

Definition get_custom_fields : list string :=
  ["id"; "size"; "is_available"].

(** [ModelSerializer.update]: each written attribute is set on the
    instance, which is then saved. *)
Definition set_attrs (instance : Size) (attrs : SizeAttrs) : Size :=
  mkSize (size_id instance)
    (from_option product_id (variant instance) (attr_variant attrs))
    (default (size instance) (attr_size attrs))
    (default (size_quantity instance) (attr_quantity attrs))
    (default (size_is_available instance) (attr_is_available attrs)).

Definition update (db : DB) (instance : Size) (attrs : SizeAttrs)
  : result (Size * DB) :=
  let s := set_attrs instance attrs in
  ret (s, set_sizes (save_row size_id s (sizes db)) db).

(** [ModelSerializer.create]: [Size.objects.create] with the attributes
    as keyword arguments. A column
    that is neither written nor defaulted makes the insert fail. *)
Definition create (dflt : SizeDefaults) (db : DB) (attrs : SizeAttrs)
  : result (Size * DB) :=
  match attr_variant attrs,
        from_option Some (default_size dflt) (attr_size attrs),
        from_option Some (default_quantity dflt) (attr_quantity attrs),
        from_option Some (default_is_available dflt)
          (attr_is_available attrs) with
  | Some v, Some label, Some q, Some avail =>
      let s := mkSize (next_pk size_id (sizes db)) (product_id v)
                 label q avail in
      ret (s, set_sizes (sizes db ++ [s]) db)
  | _, _, _, _ => raise IntegrityError
  end.

(** On create a field is required when the model gives its column no
    default; the relation to the product has none. *)
Definition required_fields_present (dflt : SizeDefaults) (attrs : SizeAttrs)
  : bool :=
  bool_decide (is_Some (attr_variant attrs))
  && bool_decide (is_Some (from_option Some (default_size dflt)
                             (attr_size attrs)))
  && bool_decide (is_Some (from_option Some (default_quantity dflt)
                             (attr_quantity attrs)))
  && bool_decide (is_Some (from_option Some (default_is_available dflt)
                             (attr_is_available attrs))).

(** Field-level validation, which the framework runs before [validate]: a
    written [size] goes through [validate_size], whose exceptions other
    than validation errors escape at once; then, on create, a missing
    required field is a validation error. An update may be partial. *)
Definition validate_fields (dflt : SizeDefaults) (db : DB)
    (instance : option Size) (attrs : SizeAttrs) : result SizeAttrs :=
  let* _ :=
    match attr_size attrs with
    | Some v => validate_size db v
    | None => ret ""
    end in
  match instance with
  | Some _ => ret attrs
  | None =>
      if required_fields_present dflt attrs then ret attrs
      else raise (ValidationError "This field is required.")
  end.

(** [is_valid] followed by [save]: the field-level validation, the
    object-level validation and the write they guard. *)
Definition save (dflt : SizeDefaults) (db : DB) (instance : option Size)
    (attrs : SizeAttrs) : result (Size * DB) :=
  let* checked := validate_fields dflt db instance attrs in
  let* validated := validate db instance checked in
  match instance with
  | Some i => update db i validated
  | None => create dflt db validated
  end.

End SizeSerializer.

(** A write request on the Size resource. *)
Inductive SizeRequest : Type :=
| SizeCreate (attrs : SizeAttrs)
| SizeUpdate (pk : Z) (attrs : SizeAttrs).

(** The controller's create and update actions, past the permission gate:
    an update first fetches the row it writes. *)
Definition size_write (dflt : SizeDefaults) (db : DB) (rq : SizeRequest)
  : result (Size * DB) :=
  match rq with
  | SizeCreate attrs => SizeSerializer.save dflt db None attrs
  | SizeUpdate k attrs =>
      let* i := get_object_or_404 size_id "Size" (sizes db) k in
      SizeSerializer.save dflt db (Some i) attrs
  end.

(** The store after a request: a request that raises writes nothing. *)
Definition size_step (dflt : SizeDefaults) (db : DB) (rq : SizeRequest)
  : DB :=
  match size_write dflt db rq with
  | inr (_, db') => db'
  | inl _ => db
  end.

Definition size_run (dflt : SizeDefaults) (db : DB) (rqs : list SizeRequest)
  : DB :=
  fold_left (size_step dflt) rqs db.

(** The inventory invariant: no product's sizes sum above its quantity. *)
Definition inventory_ok (db : DB) : bool :=
  forallb
    (fun p => sum (map size_quantity (SizeSerializer.variant_sizes db p))
              <=? product_quantity p)
    (products db).

(** *** VendorSerializer (lines 116-121) *)

Module VendorSerializer.

(** [owner = ReadOnlyField(source="owner.id")]: the one declared field. *)
Definition declared : list string := ["owner"].

(** [to_internal_value]: a read-only field takes no input, so what the
    body holds at [owner] is dropped; the rest goes through the validation
    of the model's fields, which rejects the body with a message or hands
    on the validated data. [clean] stands for that validation: required
    fields, related keys and types come from [api/models.py], which is not
    among the sources. It may consult the store. *)
Definition to_internal_value
    (clean : DB -> gmap string value -> string + gmap string value)
    (data : gmap string value) (db : DB) : result (gmap string value) :=
  match clean db (delete "owner" data) with
  | inr validated_data => ret validated_data
  | inl msg => raise (ValidationError msg)
  end.

(** [Vendor.objects.create] with keyword arguments [kw]: a keyword that
    is not a column of the model is a [TypeError]. *)
Definition objects_create (info : ModelInfo) (kw : gmap string value)
    (db : DB) : result (Vendor * DB) :=
  if bool_decide (∀ k, k ∈ dom kw ->
       k ∈ info_pk info :: info_fields info ++ info_forward_relations info)
  then
    let v := mkVendor (next_pk vendor_id (vendors db)) kw in
    ret (v, set_vendors (vendors db ++ [v]) db)
  else raise (TypeError "Vendor() got unexpected keyword arguments").

(** [serializer.save(kwargs)]: the keywords override the validated data,
    and the merged dictionary is inserted. *)
Definition save (info : ModelInfo) (validated_data kwargs : gmap string value)
    (db : DB) : result (Vendor * DB) :=
  objects_create info (kwargs ∪ validated_data) db.

End VendorSerializer.

(** *** UserSerializer (lines 159-171) *)

(** Modelled from the spec: the column defaults of the [User] model, which
    [api/models.py] declares. *)
Record UserDefaults : Type := mkUserDefaults {
  default_is_active : bool;
  default_is_staff : bool;
  default_is_vendor : bool
}.

Module UserSerializer.

Definition meta : Meta :=
  mkMeta None (Some ["user_permissions"; "groups"; "is_superuser"]).

(** Modelled from the spec: the fields of the [User] model that the
    sources and the data model name. *)
Definition info : ModelInfo :=
  mkModelInfo "id"
    ["password"; "is_superuser"; "email"; "is_staff"; "is_active";
     "is_vendor"]
    ["groups"; "user_permissions"].

(** [auth_token = StringRelatedField()]. *)
Definition declared : list string := ["auth_token"].

Definition get_field_names : list string :=
  ModelSerializer.get_field_names meta declared info.

(** [extra_kwargs], with the primary key and the string relation, which
    the framework makes read-only. *)
Definition read_only (f : string) : bool :=
  bool_decide (f ∈ ["id"; "auth_token"; "is_active"; "is_staff"; "is_vendor"]).

Definition write_only (f : string) : bool := String.eqb f "password".

Definition required (f : string) : bool :=
  bool_decide (f ∈ ["password"; "email"]).

(** Field validation over the writable fields [fs]. [clean f v] is the
    validation of the written value [v] by the field [f] that the
    framework builds from the model: the message of a validation error, or
    the value it hands on (trimmed, coerced). The model is declared in
    [api/models.py], so [clean] is a parameter. *)
Fixpoint run_fields (clean : string -> value -> string + value)
    (fs : list string) (data : gmap string value)
  : result (gmap string value) :=
  match fs with
  | [] => ret ∅
  | f :: fs' =>
      let* rest := run_fields clean fs' data in
      match data !! f with
      | Some v =>
          match clean f v with
          | inr v' => ret (<[f := v']> rest)
          | inl msg => raise (ValidationError msg)
          end
      | None =>
          if required f then raise (ValidationError "This field is required.")
          else ret rest
      end
  end.

(** [legacy_defaults] tells whether the framework passes the default of a
    read-only field on to the validated data, as releases before 3.8
    did. Read-only fields never take input. *)
Definition to_internal_value (clean : string -> value -> string + value)
    (legacy_defaults : bool) (data : gmap string value)
  : result (gmap string value) :=
  let* validated :=
    run_fields clean
      (List.filter (fun f => negb (read_only f)) get_field_names) data in
  if legacy_defaults then ret (<["is_vendor" := VBool false]> validated)
  else ret validated.

Definition column_str (kw : gmap string value) (f : string) : string :=
  match kw !! f with Some (VStr s) => s | _ => "" end.

Definition column_bool (kw : gmap string value) (f : string) (dflt : bool)
  : bool :=
  match kw !! f with Some (VBool b) => b | _ => dflt end.

(** [User.objects.create] with keyword arguments [kw]: a column takes its
    keyword when there is one and its default otherwise. *)
Definition objects_create (dflt : UserDefaults) (kw : gmap string value)
    (db : DB) : result (User * DB) :=
  if bool_decide (∀ k, k ∈ dom kw ->
       k ∈ info_pk info :: info_fields info ++ info_forward_relations info)
  then
    let u := mkUser (next_pk user_id (users db))
               (column_str kw "email") (column_str kw "password")
               (column_bool kw "is_active" (default_is_active dflt))
               (column_bool kw "is_staff" (default_is_staff dflt))
               (column_bool kw "is_vendor" (default_is_vendor dflt)) in
    ret (u, set_users (users db ++ [u]) db)
  else raise (TypeError "User() got unexpected keyword arguments").

Definition save (dflt : UserDefaults) (validated_data kwargs : gmap string value)
    (db : DB) : result (User * DB) :=
  objects_create dflt (kwargs ∪ validated_data) db.

(** The readable representation: every field but the write-only one. The
    token relation is not part of the store and renders as null. *)
Definition getattr (u : User) (f : string) : result value :=
  match f with
  | "id" => ret (VInt (user_id u))
  | "auth_token" => ret VNull
  | "email" => ret (VStr (email u))
  | "is_staff" => ret (VBool (is_staff u))
  | "is_active" => ret (VBool (is_active u))
  | "is_vendor" => ret (VBool (is_vendor u))
  | _ => raise (AttributeError f)
  end.

Definition data (u : User) : result value :=
  let* d :=
    serializer_data getattr
      (List.filter (fun f => negb (write_only f)) get_field_names) u in
  ret (VDict d).

End UserSerializer.

(* --------------------------------------------------------------------- *)
(** ** [api/views.py]                                                     *)
(* --------------------------------------------------------------------- *)

(** [request.user]: [None] is the anonymous caller. *)
Definition Caller : Type := option User.

Definition caller_is_staff (c : Caller) : bool :=
  match c with Some u => is_staff u | None => false end.

(** The permission classes the viewsets instantiate. *)
Inductive permission : Type :=
| AllowAny
| IsAuthenticated
| IsAdminUser
| IsUser
| IsVendor
| IsAVendor
| CanReview
| OR (a b : permission).

(** The actions a [ModelViewSet] routes to. *)
Inductive action : Type :=
| ACreate | ARetrieve | AList | AUpdate | APartialUpdate | ADestroy.

Record Response : Type := mkResponse {
  status : Z;
  response_data : value
}.

Definition HTTP_204_NO_CONTENT : Z := 204.
Definition HTTP_405_METHOD_NOT_ALLOWED : Z := 405.

Definition detail (msg : string) : value := VDict [("detail", VStr msg)].

(** The double-quote character, for messages that quote a method name. *)
Definition dquote : string := String (Ascii.ascii_of_nat 34) EmptyString.

(** ['Method "m" not allowed.'] *)
Definition method_not_allowed (m : string) : string :=
  ("Method " ++ dquote ++ m ++ dquote ++ " not allowed.")%string.

(** *** rest_framework: permissions, object lookup, dispatch *)

Section Framework.
Context {R : Type}.

(** The classes of [api/permissions.py], which is not among the sources,
    enter as parameters: their request-level and object-level checks. *)
Variable custom_has_permission : permission -> Caller -> bool.
Variable custom_has_object_permission : permission -> Caller -> R -> bool.

Fixpoint has_permission (p : permission) (c : Caller) : bool :=
  match p with
  | AllowAny => true
  | IsAuthenticated => bool_decide (is_Some c)
  | IsAdminUser => caller_is_staff c
  | OR a b => has_permission a c || has_permission b c
  | custom => custom_has_permission custom c
  end.

Fixpoint has_object_permission (p : permission) (c : Caller) (obj : R)
  : bool :=
  match p with
  | AllowAny | IsAuthenticated | IsAdminUser => true
  | OR a b =>
      (has_permission a c && has_object_permission a c obj)
      || (has_permission b c && has_object_permission b c obj)
  | custom => custom_has_object_permission custom c obj
  end.

(** [permission_denied]: an anonymous caller is asked to authenticate. *)
Definition permission_denied {A} (c : Caller) : result A :=
  match c with
  | None => raise NotAuthenticated
  | Some _ => raise PermissionDenied
  end.

Definition check_permissions (ps : list permission) (c : Caller)
  : result unit :=
  if forallb (fun p => has_permission p c) ps then ret tt
  else permission_denied c.

Definition check_object_permissions (ps : list permission) (c : Caller)
    (obj : R) : result unit :=
  if forallb (fun p => has_object_permission p c obj) ps then ret tt
  else permission_denied c.

Variable pk : R -> Z.
Variable model : string.
(** The viewset's class attributes and its serializer's [.data]. *)
Variable queryset : DB -> list R.
Variable get_permissions : action -> list permission.
Variable data : R -> result value.

(** [get_object]: looked up in the viewset's queryset, then checked. *)
Definition get_object (act : action) (c : Caller) (db : DB) (k : Z)
  : result R :=
  let* obj := get_object_or_404 pk model (queryset db) k in
  let* _ := check_object_permissions (get_permissions act) c obj in
  ret obj.

(** [RetrieveModelMixin.retrieve]. *)
Definition retrieve (c : Caller) (k : Z) (db : DB)
  : result (Response * DB) :=
  let* instance := get_object ARetrieve c db k in
  let* d := data instance in
  ret (mkResponse 200 d, db).

Fixpoint data_many (rows : list R) : result (list value) :=
  match rows with
  | [] => ret []
  | r :: rows' =>
      let* d := data r in
      let* ds := data_many rows' in
      ret (d :: ds)
  end.

(** [ListModelMixin.list]. *)
Definition list_ (c : Caller) (db : DB) : result (Response * DB) :=
  let* ds := data_many (queryset db) in
  ret (mkResponse 200 (VList ds), db).

(** [handle_exception]: the exceptions the framework turns into a
    response; any other escapes the view. *)
Definition handle_exception (e : exception) : result Response :=
  match e with
  | Http404 => ret (mkResponse 404 (detail "Not found."))
  | NotAuthenticated =>
      ret (mkResponse 401
             (detail "Authentication credentials were not provided."))
  | PermissionDenied =>
      ret (mkResponse 403
             (detail "You do not have permission to perform this action."))
  | ValidationError d => ret (mkResponse 400 (VList [VStr d]))
  | other => raise other
  end.

(** [dispatch]: the permission gate of [initial], then the handler. A
    request that raises leaves the store as it was. *)
Definition dispatch (act : action) (c : Caller)
    (handler : DB -> result (Response * DB)) (db : DB)
  : result Response * DB :=
  match (let* _ := check_permissions (get_permissions act) c in
         handler db) with
  | inr (resp, db') => (ret resp, db')
  | inl e => (handle_exception e, db)
  end.
End Framework.

(** *** UserViewSet (lines 38-60) *)

Module UserViewSet.

Definition queryset (db : DB) : list User :=
  List.filter is_active (users db).

Definition get_permissions (act : action) : list permission :=
  match act with
  | ACreate => [AllowAny]
  | ARetrieve => [OR IsUser IsAdminUser]
  | AList => [IsAdminUser]
  | _ => [IsUser]
  end.

Section Handlers.
Variable chp : permission -> Caller -> bool.
Variable chop : permission -> Caller -> User -> bool.

Definition get_object : action -> Caller -> DB -> Z -> result User :=
  get_object chp chop user_id "User" queryset get_permissions.

Definition destroy (c : Caller) (k : Z) (db : DB)
  : result (Response * DB) :=
  let* user := get_object ADestroy c db k in
  let user :=
    mkUser (user_id user) (email user) (password user) false
      (is_staff user) (is_vendor user) in
  let db := set_users (save_row user_id user (users db)) db in
  ret (mkResponse HTTP_204_NO_CONTENT VNull, db).

Definition retrieve : Caller -> Z -> DB -> result (Response * DB) :=
  retrieve chp chop user_id "User" queryset get_permissions
    UserSerializer.data.

Definition list_ : Caller -> DB -> result (Response * DB) :=
  list_ queryset UserSerializer.data.

Definition dispatch
  : action -> Caller -> (DB -> result (Response * DB)) -> DB ->
    result Response * DB :=
  dispatch chp get_permissions.
End Handlers.

(** [perform_create] (lines 48-49): the serializer is saved with the
    hashed password as a keyword. [make_password] is Django's hasher. *)
Definition perform_create (make_password : string -> string)
    (dflt : UserDefaults) (validated_data : gmap string value) (db : DB)
  : result (User * DB) :=
  let* plaintext :=
    match validated_data !! "password" with
    | Some (VStr s) => ret s
    | Some _ => raise (TypeError "Password must be a string or bytes")
    | None => raise (KeyError "password")
    end in
  UserSerializer.save dflt validated_data
    {["password" := VStr (make_password plaintext)]} db.

(** The create action past the permission gate: validation, then
    [perform_create]. The validation of a field may consult the store, as
    a uniqueness check does, so [clean] takes it. *)
Definition create (make_password : string -> string)
    (dflt : UserDefaults) (legacy_defaults : bool)
    (clean : DB -> string -> value -> string + value)
    (data : gmap string value) (db : DB) : result (User * DB) :=
  let* validated_data :=
    UserSerializer.to_internal_value (clean db) legacy_defaults data in
  perform_create make_password dflt validated_data db.

End UserViewSet.

(** *** ProductViewSet (lines 63-76) *)

Module ProductViewSet.

Definition queryset (db : DB) : list Product :=
  List.filter is_available (products db).

Definition get_permissions (act : action) : list permission :=
  match act with
  | ACreate => [IsAVendor]
  | AList | ARetrieve => [AllowAny]
  | ADestroy => [OR IsVendor IsAdminUser]
  | _ => [IsVendor]
  end.

Section Handlers.
Variable chp : permission -> Caller -> bool.
Variable chop : permission -> Caller -> Product -> bool.

Definition retrieve : Caller -> Z -> DB -> result (Response * DB) :=
  retrieve chp chop product_id "Product" queryset get_permissions
    (ProductSerializer.data None).

Definition list_ : Caller -> DB -> result (Response * DB) :=
  list_ queryset (ProductSerializer.data None).

Definition dispatch
  : action -> Caller -> (DB -> result (Response * DB)) -> DB ->
    result Response * DB :=
  dispatch chp get_permissions.
End Handlers.

End ProductViewSet.

(** *** VendorViewSet (lines 114-130) *)

Module VendorViewSet.

Definition get_permissions (act : action) : list permission :=
  match act with
  | AList | ARetrieve => [AllowAny]
  | ACreate => [IsAuthenticated]
  | _ => [OR IsUser IsAdminUser]
  end.

(** [perform_create] (lines 118-123). [user] is [self.request.user], the
    caller's row; [info] is the field info of the [Vendor] model, which
    [api/models.py] declares. *)
Definition perform_create (info : ModelInfo) (user : User)
    (validated_data : gmap string value) (db : DB)
  : result (Vendor * DB) :=
  let* saved :=
    VendorSerializer.save info validated_data
      {["user" := VInt (user_id user)]} db in
  let '(v, db) := saved in
  if negb (is_vendor user) then
    let user :=
      mkUser (user_id user) (email user) (password user) (is_active user)
        (is_staff user) true in
    ret (v, set_users (save_row user_id user (users db)) db)
  else ret (v, db).

(** The create action past the permission gate: validation, then
    [perform_create]. *)
Definition create (info : ModelInfo)
    (clean : DB -> gmap string value -> string + gmap string value)
    (user : User) (data : gmap string value) (db : DB)
  : result (Vendor * DB) :=
  let* validated_data := VendorSerializer.to_internal_value clean data db in
  perform_create info user validated_data db.

End VendorViewSet.

(** *** OrderViewSet (lines 160-182) *)

(** A request as a handler sees it: who calls, and the body sent. *)
Record Request : Type := mkRequest {
  request_user : Caller;
  request_data : gmap string value
}.

Module OrderViewSet.

Definition queryset (db : DB) : list Order := orders db.

Definition update (request : Request) (k : Z) (db : DB)
  : result (Response * DB) :=
  ret (mkResponse HTTP_405_METHOD_NOT_ALLOWED
         (detail (method_not_allowed "PUT")), db).

Definition partial_update (request : Request) (k : Z) (db : DB)
  : result (Response * DB) :=
  ret (mkResponse HTTP_405_METHOD_NOT_ALLOWED
         (detail (method_not_allowed "PATCH")), db).

Definition get_permissions (act : action) : list permission :=
  match act with
  | ACreate => [IsAuthenticated]
  | _ => [OR IsUser IsAdminUser]
  end.

Definition dispatch (chp : permission -> Caller -> bool)
  : action -> Caller -> (DB -> result (Response * DB)) -> DB ->
    result Response * DB :=
  dispatch chp get_permissions.

End OrderViewSet.

(* --------------------------------------------------------------------- *)
(** ** Vocabulary of the statements and sample stores                    *)
(* --------------------------------------------------------------------- *)

(** Two products, both in stock. *)
Definition shirt : Product := mkProduct 1 "Shirt" "Acme" 1999 true 5 "" 1.

Definition scarf : Product := mkProduct 2 "Scarf" "Acme" 999 true 1 "" 1.

Definition shop_db : DB := mkDB [] [shirt; scarf] [] [] [] ["S"; "M"; "L"].

(** The default representation of a product. *)
Definition product_representation (p : Product) : value :=
  VDict [("id", VInt (product_id p)); ("name", VStr (name p));
         ("brand", VStr (brand p)); ("price", VInt (price p));
         ("is_available", VBool (is_available p));
         ("vendor", VInt (vendor p))].

(** A discontinued product next to the two in stock. *)
Definition old_hat : Product := mkProduct 3 "Hat" "Acme" 500 false 0 "" 1.

Definition catalogue_db : DB :=
  mkDB [] [shirt; scarf; old_hat] [] [] [] [].

Definition user_representation (u : User) : value :=
  VDict [("id", VInt (user_id u)); ("auth_token", VNull);
         ("email", VStr (email u)); ("is_staff", VBool (is_staff u));
         ("is_active", VBool (is_active u));
         ("is_vendor", VBool (is_vendor u))].

(** The row that [destroy] saves. *)
Definition deactivated (u : User) : User :=
  mkUser (user_id u) (email u) (password u) false (is_staff u) (is_vendor u).

(** Modelled from the spec: the [IsUser] class of [api/permissions.py],
    which is not among the sources, read as the spec's "self" (an anonymous
    caller can perform no operation on Orders or Users): any authenticated
    caller at request level, the caller's own record at object level. *)
Definition self_has_permission (p : permission) (c : Caller) : bool :=
  bool_decide (is_Some c).

Definition self_has_object_permission (p : permission) (c : Caller)
    (obj : User) : bool :=
  match c with
  | Some u => user_id u =? user_id obj
  | None => false
  end.

(** A customer and an administrator. *)
Definition alice : User := mkUser 1 "alice@shop.test" "pbkdf2$a" true false false.

Definition root : User := mkUser 2 "root@shop.test" "pbkdf2$r" true true false.

Definition accounts_db : DB := mkDB [alice; root] [] [] [] [] [].

(** The same accounts with an order that [alice] placed. *)
Definition orders_db : DB := mkDB [alice; root] [] [] [] [mkOrder 1 1 1] [].

(** The accounts once [alice] has deleted her own. *)
Definition accounts_after_destroy : DB :=
  snd (UserViewSet.dispatch self_has_permission ADestroy (Some alice)
         (UserViewSet.destroy self_has_permission self_has_object_permission
            (Some alice) 1) accounts_db).

(** The validated data of a request with a password and an email. *)
Definition validated_user (legacy_defaults : bool) (plaintext e : string)
  : gmap string value :=
  let m := <["password" := VStr plaintext]> (<["email" := VStr e]> ∅) in
  if legacy_defaults then <["is_vendor" := VBool false]> m else m.

(** A hasher that fits the hypothesis: it prefixes the algorithm's name. *)
Definition tagged_hash (s : string) : string := String.append "sha$" s.

(** A field validation for the samples: a character field that accepts
    every string but the blank one. *)
Definition nonblank_string (db : DB) (f : string) (v : value)
  : string + value :=
  match v with
  | VStr "" => inl "This field may not be blank."
  | VStr s => inr (VStr s)
  | _ => inl "Not a valid string."
  end.

(** A sign-up that tries to grant itself the staff flag. *)
Definition signup_data : gmap string value :=
  {[ "email" := VStr "eve@shop.test"; "password" := VStr "hunter2";
     "is_staff" := VBool true ]}.

(** The row that [perform_create] saves for a caller who is not yet a
    vendor. *)
Definition promoted (u : User) : User :=
  mkUser (user_id u) (email u) (password u) (is_active u) (is_staff u) true.

(** The store after a vendor [v] is created for the caller [u]. *)
Definition vendor_created (u : User) (v : Vendor) (db : DB) : DB :=
  let db := set_vendors (vendors db ++ [v]) db in
  if is_vendor u then db
  else set_users (save_row user_id (promoted u) (users db)) db.

Definition columns (info : ModelInfo) : list string :=
  info_pk info :: info_fields info ++ info_forward_relations info.

(** A Vendor model with a name and the [user] relation. *)
Definition vendor_info : ModelInfo := mkModelInfo "id" ["name"] ["user"].

(** A field validation for the samples: the vendor's name is required
    and is all that is handed on. *)
Definition name_required (db : DB) (data : gmap string value)
  : string + gmap string value :=
  match data !! "name" with
  | Some (VStr n) => inr {[ "name" := VStr n ]}
  | Some _ => inl "Not a valid string."
  | None => inl "This field is required."
  end.

(** A request that names somebody else as the owner. *)
Definition storefront_data : gmap string value :=
  {[ "name" := VStr "Alice's"; "owner" := VInt 2; "user" := VInt 2 ]}.

(** A store in which the only size of the shirt takes up its whole
    quantity, and the scarf has no size yet. *)
Definition shirt_m : Size := mkSize 1 1 "M" 5 true.

Definition stock_db : DB :=
  mkDB [] [shirt; scarf] [shirt_m] [] [] ["S"; "M"; "L"].

(** A partial update that moves the size under the scarf and writes no
    quantity. *)
Definition move_to_scarf : SizeRequest :=
  SizeUpdate 1 (mkSizeAttrs (Some scarf) None None None).

(** A well-formed store: keys are distinct and no size has a negative
    quantity. *)
Definition store_wf (db : DB) : Prop :=
  List.NoDup (map product_id (products db))
  /\ List.NoDup (map size_id (sizes db))
  /\ Forall (fun s => 0 <= size_quantity s) (sizes db).

Definition request_attrs (rq : SizeRequest) : SizeAttrs :=
  match rq with
  | SizeCreate attrs => attrs
  | SizeUpdate _ attrs => attrs
  end.

(** A request that writes a quantity, not negative, and whose variant, when
    it writes one, is a stored product. *)
Definition writes_quantity (ps : list Product) (rq : SizeRequest) : Prop :=
  (exists q, attr_quantity (request_attrs rq) = Some q /\ 0 <= q)
  /\ (forall v, attr_variant (request_attrs rq) = Some v -> In v ps).

(* --------------------------------------------------------------------- *)
(** ** The remaining controllers and serializer classes                   *)
(* --------------------------------------------------------------------- *)

(** *** SizeViewSet (lines 79-86) *)

Module SizeViewSet.

Definition get_permissions (act : action) : list permission :=
  match act with
  | AList | ARetrieve => [AllowAny]
  | _ => [IsVendor]
  end.

End SizeViewSet.

(** *** ImageViewSet (lines 89-100) *)

Module ImageViewSet.

Definition get_permissions (act : action) : list permission :=
  match act with
  | AList | ARetrieve => [AllowAny]
  | ADestroy => [OR IsVendor IsAdminUser]
  | _ => [IsVendor]
  end.

End ImageViewSet.

(** *** CategoryViewSet (lines 103-111) *)

Module CategoryViewSet.

Definition get_permissions (act : action) : list permission :=
  match act with
  | AList | ARetrieve => [AllowAny]
  | _ => [IsAdminUser]
  end.

End CategoryViewSet.

(** *** OrderItemViewSet (lines 133-141) *)

Module OrderItemViewSet.

Definition get_permissions (act : action) : list permission :=
  [OR IsAdminUser IsUser].

End OrderItemViewSet.

(** *** ReviewViewSet (lines 144-157) *)

Module ReviewViewSet.

Definition get_permissions (act : action) : list permission :=
  match act with
  | AList | ARetrieve => [AllowAny]
  | ACreate => [OR CanReview IsAdminUser]
  | _ => [OR IsUser IsAdminUser]
  end.

End ReviewViewSet.

(** The nine controllers of [api/views.py] and the permissions each asks
    for. *)
Inductive viewset : Type :=
| VUser | VProduct | VSize | VImage | VCategory | VVendor | VOrderItem
| VReview | VOrder.

Definition viewset_get_permissions (vs : viewset) (act : action)
  : list permission :=
  match vs with
  | VUser => UserViewSet.get_permissions act
  | VProduct => ProductViewSet.get_permissions act
  | VSize => SizeViewSet.get_permissions act
  | VImage => ImageViewSet.get_permissions act
  | VCategory => CategoryViewSet.get_permissions act
  | VVendor => VendorViewSet.get_permissions act
  | VOrderItem => OrderItemViewSet.get_permissions act
  | VReview => ReviewViewSet.get_permissions act
  | VOrder => OrderViewSet.get_permissions act
  end.

Definition is_read (act : action) : bool :=
  match act with
  | AList | ARetrieve => true
  | _ => false
  end.

(** *** The serializer classes and their [get_custom_fields] *)

(** The serializer classes that [api/serializers.py] defines. *)
Inductive serializer_class : Type :=
| ImageSerializer_class
| ProductSerializer_class
| CategorySerializer_class
| SizeSerializer_class
| VendorSerializer_class
| ReviewSerializer_class
| OrderItemSerializer_class
| CartSerializer_class
| UserSerializer_class
| OrderSerializer_class.

Definition class_name (cls : serializer_class) : string :=
  match cls with
  | ImageSerializer_class => "ImageSerializer"
  | ProductSerializer_class => "ProductSerializer"
  | CategorySerializer_class => "CategorySerializer"
  | SizeSerializer_class => "SizeSerializer"
  | VendorSerializer_class => "VendorSerializer"
  | ReviewSerializer_class => "ReviewSerializer"
  | OrderItemSerializer_class => "OrderItemSerializer"
  | CartSerializer_class => "CartSerializer"
  | UserSerializer_class => "UserSerializer"
  | OrderSerializer_class => "OrderSerializer"
  end.

(** The [get_custom_fields] that a class body defines (lines 55-57, 67-69,
    111-113, 130-131, 145-147). The bases, [DynamicModelSerializer] and the
    framework's [ModelSerializer], define no such name, so a class without
    its own inherits none. *)
Definition own_get_custom_fields (cls : serializer_class)
  : option (list string) :=
  match cls with
  | ImageSerializer_class => Some ["id"; "url"]
  | ProductSerializer_class => Some ProductSerializer.get_custom_fields
  | CategorySerializer_class => None
  | SizeSerializer_class => Some SizeSerializer.get_custom_fields
  | VendorSerializer_class => None
  | ReviewSerializer_class => Some ["id"; "product"; "stars"]
  | OrderItemSerializer_class => Some OrderItemSerializer.get_custom_fields
  | CartSerializer_class => None
  | UserSerializer_class => None
  | OrderSerializer_class => None
  end.

(** [cls.get_custom_fields()]: an [AttributeError] when the lookup finds
    nothing. *)
Definition class_get_custom_fields (cls : serializer_class)
  : result (list string) :=
  match own_get_custom_fields cls with
  | Some fields => ret fields
  | None =>
      raise (AttributeError
               ("type object '" ++ class_name cls
                ++ "' has no attribute 'get_custom_fields'")%string)
  end.

(** [CustomRelatedField.to_representation] (lines 43-46) with the field's
    serializer as the class it was built with, [None] when the keyword was
    left out. The argument [self.serializer.get_custom_fields()] is
    evaluated before the serializer is instantiated; [data_of] is the
    [.data] of a class for a field list and an instance. *)
Definition to_representation_of_class {R : Type}
    (serializer : option serializer_class)
    (data_of : serializer_class -> option (list string) -> R -> result value)
    (v : R) : result value :=
  match serializer with
  | Some cls =>
      let* fields := class_get_custom_fields cls in
      data_of cls (Some fields) v
  | None =>
      raise (AttributeError
               "'NoneType' object has no attribute 'get_custom_fields'")
  end.

(** *** OrderSerializer (lines 174-180): the [cart] field *)

Module OrderSerializer.

(** [cart = CustomRelatedField(queryset=Cart.objects.all(),
    serializer=CartSerializer)], on read. *)
Definition cart_to_representation {Cart : Type}
    (data_of : serializer_class -> option (list string) -> Cart ->
               result value)
    (cart : Cart) : result value :=
  to_representation_of_class (Some CartSerializer_class) data_of cart.

End OrderSerializer.

(** Size writes against [stock_db], none with a label: the shirt's size
    shrinks to 3, the scarf gets a first size of 1, and a size of 9 is
    asked for the shirt. *)
Definition stock_requests : list SizeRequest :=
  [ SizeUpdate 1 (mkSizeAttrs None None (Some 3) None);
    SizeCreate (mkSizeAttrs (Some scarf) None (Some 1) (Some true));
    SizeCreate (mkSizeAttrs (Some shirt) None (Some 9) (Some true)) ].

(** A Size model whose label defaults to the empty string. *)
Definition unlabelled_defaults : SizeDefaults :=
  mkSizeDefaults (Some "") None (Some true).

(** A Vendor model that names the relation [owner], as the serializer's
    [source] does. *)
Definition vendor_info_owner : ModelInfo := mkModelInfo "id" ["name"] ["owner"].

(* ===================================================================== *)
(** * Part II. Properties                                                 *)
(* ===================================================================== *)

(** ** Results and querysets *)

Lemma bind_ret {A B} (a : A) (k : A -> result B) : bind (ret a) k = k a.
Proof. reflexivity. Qed.

Lemma bind_raise {A B} (e : exception) (k : A -> result B) :
  bind (raise e) k = raise e.
Proof. reflexivity. Qed.

Lemma bind_inr_inv {A B} (c : result A) (k : A -> result B) (b : B) :
  bind c k = inr b -> exists a, c = inr a /\ k a = inr b.
Proof. destruct c as [e|a]; simpl; [discriminate | eauto]. Qed.

Lemma bind_inl_inv {A B} (c : result A) (k : A -> result B) (e : exception) :
  bind c k = inl e -> c = inl e \/ exists a, c = inr a /\ k a = inl e.
Proof. destruct c as [e'|a]; simpl; [intros [= ->]; auto | eauto]. Qed.

Section QuerySetFacts.
Context {R : Type}.
Variable pk : R -> Z.
Variable model : string.

(** No row of the queryset has the key: the filter that [get] runs over
    it is empty. *)
Lemma filter_pk_absent (qs : list R) (k : Z) :
  (forall r, In r qs -> pk r <> k) ->
  List.filter (fun r => pk r =? k) qs = [].
Proof.
  induction qs as [|r qs IH]; intros Habs; simpl; [reflexivity|].
  destruct (Z.eqb_spec (pk r) k) as [Heq|_].
  - exfalso. apply (Habs r); [left; reflexivity | exact Heq].
  - apply IH. intros r' Hr'. apply Habs. right; exact Hr'.
Qed.

(** With distinct keys the filter holds exactly the row that has the
    key. *)
Lemma filter_pk_unique (qs : list R) (r : R) :
  List.NoDup (map pk qs) -> In r qs ->
  List.filter (fun r' => pk r' =? pk r) qs = [r].
Proof.
  induction qs as [|r0 qs IH]; intros Hnd Hin; [destruct Hin|].
  simpl in Hnd. apply NoDup_cons_iff in Hnd as [Hnotin Hnd].
  simpl. destruct Hin as [-> | Hin].
  - rewrite Z.eqb_refl. f_equal. apply filter_pk_absent.
    intros r' Hr' Heq. apply Hnotin. rewrite <- Heq.
    apply in_map; exact Hr'.
  - destruct (Z.eqb_spec (pk r0) (pk r)) as [Heq|_].
    + exfalso. apply Hnotin. rewrite Heq. apply in_map; exact Hin.
    + apply IH; assumption.
Qed.

Lemma queryset_get_absent (qs : list R) (k : Z) :
  (forall r, In r qs -> pk r <> k) ->
  queryset_get pk model qs k = raise (DoesNotExist model).
Proof.
  intros Habs. unfold queryset_get. rewrite filter_pk_absent by exact Habs.
  reflexivity.
Qed.

Lemma queryset_get_present (qs : list R) (r : R) :
  List.NoDup (map pk qs) -> In r qs -> queryset_get pk model qs (pk r) = ret r.
Proof.
  intros Hnd Hin. unfold queryset_get.
  rewrite filter_pk_unique by assumption. reflexivity.
Qed.

(** What [get] returns is a row of the queryset with the key asked for. *)
Lemma queryset_get_sound (qs : list R) (k : Z) (r : R) :
  queryset_get pk model qs k = ret r -> In r qs /\ pk r = k.
Proof.
  unfold queryset_get.
  destruct (List.filter (fun r' => pk r' =? k) qs) as [|r0 [|r1 rest]] eqn:Hf;
    try discriminate.
  intros [= <-].
  assert (Hin : In r0 (List.filter (fun r' => pk r' =? k) qs))
    by (rewrite Hf; left; reflexivity).
  apply filter_In in Hin as [Hin Hk]. split; [exact Hin | lia].
Qed.

Lemma get_object_or_404_absent (qs : list R) (k : Z) :
  (forall r, In r qs -> pk r <> k) ->
  get_object_or_404 pk model qs k = raise Http404.
Proof.
  intros Habs. unfold get_object_or_404.
  rewrite queryset_get_absent by exact Habs. reflexivity.
Qed.

Lemma get_object_or_404_present (qs : list R) (r : R) :
  List.NoDup (map pk qs) -> In r qs ->
  get_object_or_404 pk model qs (pk r) = ret r.
Proof.
  intros Hnd Hin. unfold get_object_or_404.
  rewrite queryset_get_present by assumption. reflexivity.
Qed.

(** A filtered queryset keeps the keys distinct. *)
Lemma NoDup_map_filter (f : R -> bool) (qs : list R) :
  List.NoDup (map pk qs) -> List.NoDup (map pk (List.filter f qs)).
Proof.
  induction qs as [|r qs IH]; intros Hnd; simpl; [constructor|].
  simpl in Hnd. apply NoDup_cons_iff in Hnd as [Hnotin Hnd].
  destruct (f r); simpl; [|apply IH; exact Hnd].
  apply NoDup_cons_iff. split; [|apply IH; exact Hnd].
  intros Hin. apply Hnotin. apply in_map_iff in Hin as [r' [Heq Hr']].
  apply filter_In in Hr' as [Hr' _]. rewrite <- Heq.
  apply in_map; exact Hr'.
Qed.

(** Saving a row changes no key. *)
Lemma save_row_keys (r : R) (rows : list R) :
  map pk (save_row pk r rows) = map pk rows.
Proof.
  unfold save_row. induction rows as [|old rows IH]; simpl; [reflexivity|].
  rewrite IH. destruct (Z.eqb_spec (pk old) (pk r)) as [Heq|_];
    [rewrite Heq|]; reflexivity.
Qed.

(** After saving, a stored key leads to the saved row. *)
Lemma save_row_In (r : R) (rows : list R) :
  In (pk r) (map pk rows) -> In r (save_row pk r rows).
Proof.
  unfold save_row. intros Hin. apply in_map_iff in Hin as [old [Hk Hold]].
  apply in_map_iff. exists old. split; [|exact Hold].
  rewrite Hk, Z.eqb_refl. reflexivity.
Qed.

(** Every row after a save is the saved row or a row that was there
    under another key. *)
Lemma save_row_inv (r r' : R) (rows : list R) :
  In r' (save_row pk r rows) ->
  r' = r \/ (In r' rows /\ pk r' <> pk r).
Proof.
  unfold save_row. intros Hin. apply in_map_iff in Hin as [old [Heq Hold]].
  destruct (Z.eqb_spec (pk old) (pk r)) as [_|Hne].
  - left. symmetry; exact Heq.
  - right. subst r'. split; assumption.
Qed.
End QuerySetFacts.

(** ** Orders accept no update *)

(** The gate of [dispatch] writes nothing: when a handler leaves the store
    alone, so does the dispatched request, admitted or not. *)
Lemma dispatch_store_unchanged (chp : permission -> Caller -> bool)
    (get_permissions : action -> list permission) (act : action)
    (c : Caller) (handler : DB -> result (Response * DB)) (db : DB) :
  (forall resp db', handler db = inr (resp, db') -> db' = db) ->
  snd (dispatch chp get_permissions act c handler db) = db.
Proof.
  intros Hframe. unfold dispatch.
  destruct (check_permissions chp (get_permissions act) c) as [e|[]]; simpl;
    [reflexivity|].
  destruct (handler db) as [e|[resp db']] eqn:Hh; simpl; [reflexivity|].
  apply (Hframe resp); reflexivity.
Qed.

(** A staff caller passes the gate of every Order action but create,
    whatever [IsUser] decides. *)
Lemma OrderViewSet_gate_admits_staff (chp : permission -> Caller -> bool)
    (act : action) (admin : User) :
  act <> ACreate -> is_staff admin = true ->
  check_permissions chp (OrderViewSet.get_permissions act) (Some admin)
  = ret tt.
Proof.
  intros Hact Hstaff. unfold check_permissions.
  destruct act; try congruence; simpl; rewrite Hstaff, orb_true_r;
    reflexivity.
Qed.

(** Dispatched by a staff caller, an update reaches the handler and comes
    back as the 405 response. *)
Lemma OrderViewSet_dispatch_update_staff (chp : permission -> Caller -> bool)
    (admin : User) (request : Request) (k : Z) (db : DB) :
  is_staff admin = true ->
  OrderViewSet.dispatch chp AUpdate (Some admin)
    (OrderViewSet.update request k) db
  = (ret (mkResponse 405 (detail (method_not_allowed "PUT"))), db).
Proof.
  intros Hstaff. unfold OrderViewSet.dispatch, dispatch.
  rewrite OrderViewSet_gate_admits_staff by (congruence || assumption).
  reflexivity.
Qed.

(** C2, as the code has it. An update or partial update of an Order is
    answered with status 405 and the body
    [{"detail": 'Method "PUT" not allowed.'}], respectively
    [{"detail": 'Method "PATCH" not allowed.'}], for every caller that the
    permission gate admits: a staff caller, or one that [IsUser] admits at
    request level. The answer is the same for all of them, whatever the
    request holds and whichever Order it names. Every other caller is
    stopped at the gate, with 401 when anonymous and 403 otherwise. In
    both cases the store, the Order included, is what it was. *)
Theorem OrderViewSet_update_method_not_allowed :
  forall (chp : permission -> Caller -> bool) (request : Request) (k : Z)
         (db : DB),
    let c := request_user request in
    let quote := String (Ascii.ascii_of_nat 34) EmptyString in
    let body (method : string) :=
      VDict [("detail",
              VStr ("Method " ++ quote ++ method ++ quote
                    ++ " not allowed.")%string)] in
    let denial :=
      match c with
      | None =>
          mkResponse 401
            (VDict [("detail",
                     VStr "Authentication credentials were not provided.")])
      | Some _ =>
          mkResponse 403
            (VDict [("detail",
                     VStr "You do not have permission to perform this action.")])
      end in
    ((chp IsUser c = true \/ exists u, c = Some u /\ is_staff u = true) ->
     OrderViewSet.dispatch chp AUpdate c (OrderViewSet.update request k) db
     = (ret (mkResponse 405 (body "PUT")), db)
     /\ OrderViewSet.dispatch chp APartialUpdate c
          (OrderViewSet.partial_update request k) db
        = (ret (mkResponse 405 (body "PATCH")), db))
    /\ ((chp IsUser c = false /\ forall u, c = Some u -> is_staff u = false) ->
        OrderViewSet.dispatch chp AUpdate c (OrderViewSet.update request k) db
        = (ret denial, db)
        /\ OrderViewSet.dispatch chp APartialUpdate c
             (OrderViewSet.partial_update request k) db
           = (ret denial, db)).
Proof.
  intros chp request k db c quote body denial.
  unfold OrderViewSet.dispatch, dispatch, check_permissions.
  cbn [OrderViewSet.get_permissions forallb has_permission].
  rewrite andb_true_r. split.
  - intros Hadmitted.
    assert (Hgate : chp IsUser c || caller_is_staff c = true).
    { destruct Hadmitted as [-> | (u & -> & Hstaff)]; [reflexivity|].
      cbn [caller_is_staff]. rewrite Hstaff. apply orb_true_r. }
    rewrite Hgate. split; reflexivity.
  - intros [Huser Hstaff].
    assert (Hgate : chp IsUser c || caller_is_staff c = false).
    { rewrite Huser. destruct c as [u|]; [|reflexivity].
      cbn [caller_is_staff orb]. apply Hstaff; reflexivity. }
    rewrite Hgate. subst denial. destruct c; split; reflexivity.
Qed.

Lemma OrderViewSet_update_method_not_allowed_witness :
  OrderViewSet.dispatch self_has_permission AUpdate (Some root)
    (OrderViewSet.update (mkRequest (Some root) ∅) 1) orders_db
  = (ret (mkResponse 405 (detail (method_not_allowed "PUT"))), orders_db).
Proof.
  refine (proj1 (proj1 (OrderViewSet_update_method_not_allowed
                          self_has_permission (mkRequest (Some root) ∅) 1
                          orders_db) _)).
  right. exists root. split; reflexivity.
Defined.

(** C2, as the spec has it, fails. [alice] placed the stored Order, and
    her update of it is answered with 405. The same update sent by an
    anonymous caller never reaches the handler: the gate answers 401, and
    so for the partial update. The outcome depends on who calls. *)
Lemma OrderViewSet_update_anonymous_is_denied :
  In (mkOrder 1 (user_id alice) 1) (orders orders_db)
  /\ fst (OrderViewSet.dispatch self_has_permission AUpdate (Some alice)
            (OrderViewSet.update (mkRequest (Some alice) ∅) 1) orders_db)
     = ret (mkResponse 405 (detail (method_not_allowed "PUT")))
  /\ fst (OrderViewSet.dispatch self_has_permission AUpdate None
            (OrderViewSet.update (mkRequest None ∅) 1) orders_db)
     = ret (mkResponse 401
              (detail "Authentication credentials were not provided."))
  /\ fst (OrderViewSet.dispatch self_has_permission APartialUpdate None
            (OrderViewSet.partial_update (mkRequest None ∅) 1) orders_db)
     = ret (mkResponse 401
              (detail "Authentication credentials were not provided."))
  /\ ~ (exists d,
          fst (OrderViewSet.dispatch self_has_permission AUpdate None
                 (OrderViewSet.update (mkRequest None ∅) 1) orders_db)
          = ret (mkResponse 405 d)).
Proof.
  split; [left; reflexivity|].
  split; [reflexivity|]. split; [reflexivity|]. split; [reflexivity|].
  intros [d Hd]. discriminate Hd.
Qed.

(** ** The size vocabulary *)

(** In a namespace that binds [SizeChart] to the vocabulary model,
    [validate_size] accepts exactly the labels of the vocabulary. *)
Lemma validate_size_in_bound (g : list (string * global)) (db : DB)
    (v : string) :
  load_global g "SizeChart" = ret (GModel "SizeChart") ->
  SizeSerializer.validate_size_in g db v
  = if existsb (String.eqb v) (size_chart db) then ret v
    else raise (ValidationError "Invalid value for size").
Proof.
  intros Hg. unfold SizeSerializer.validate_size_in. rewrite Hg. simpl.
  destruct (existsb (String.eqb v) (size_chart db)); reflexivity.
Qed.

(** The file's namespace does not bind [SizeChart]. *)
Lemma SizeChart_unbound :
  load_global serializers_globals "SizeChart" = raise (NameError "SizeChart").
Proof. reflexivity. Qed.

(** C3. [SizeSerializer.validate_size] evaluates the name [SizeChart], which
    [api/serializers.py] neither imports nor defines: whatever the label
    and whatever the vocabulary holds, the call ends in a [NameError], so a
    label outside the vocabulary does not get the ValidationError
    ["Invalid value for size"] and a label inside it is not accepted. *)
Theorem validate_size_raises_NameError :
  forall (db : DB) (v : string),
    SizeSerializer.validate_size db v = raise (NameError "SizeChart").
Proof. intros db v. reflexivity. Qed.

(** ** Dynamic field selection *)

Lemma list_remove_In (x y : string) (l : list string) :
  In y (list_remove x l) -> In y l.
Proof.
  induction l as [|z l IH]; simpl; [tauto|].
  destruct (String.eqb z x); simpl; tauto.
Qed.

(** With an allow-list the names kept are the default names that the
    allow-list holds. *)
Lemma get_field_names_allowed (field_names fields : list string) (x : string) :
  In x (DynamicModelSerializer.get_field_names field_names (Some fields))
  <-> In x field_names /\ In x fields.
Proof.
  unfold DynamicModelSerializer.get_field_names.
  rewrite filter_In, bool_decide_eq_true, not_elem_of_difference.
  rewrite !elem_of_list_to_set, !list_elem_of_In. tauto.
Qed.

(** The kept names come in the order of the default names. *)
Lemma get_field_names_sublist (field_names : list string)
    (dynamic_fields : option (list string)) :
  sublist (DynamicModelSerializer.get_field_names field_names dynamic_fields)
    field_names.
Proof.
  destruct dynamic_fields as [fields|]; simpl; [|reflexivity].
  generalize (fun x : string =>
    bool_decide (x ∉ (list_to_set field_names ∖ list_to_set fields : gset string))).
  intros f. induction field_names as [|y l IH]; simpl; [constructor|].
  destruct (f y); [apply sublist_skip | apply sublist_cons]; exact IH.
Qed.

(** C6. With an allow-list [fields], a dynamic serializer exposes exactly
    the default field names that are also in [fields], so a name outside
    the default set cannot be added; without one it exposes the default
    field names as they are. A Product representation narrowed to
    [id, name] has exactly these two fields. *)
Theorem DynamicModelSerializer_get_field_names_spec :
  forall (field_names fields : list string),
    (forall x,
       In x (DynamicModelSerializer.get_field_names field_names (Some fields))
       <-> In x field_names /\ In x fields)
    /\ DynamicModelSerializer.get_field_names field_names None = field_names
    /\ ProductSerializer.get_field_names (Some ["id"; "name"]) = ["id"; "name"]
    /\ (forall p : Product,
          ProductSerializer.data (Some ["id"; "name"]) p
          = ret (VDict [("id", VInt (product_id p)); ("name", VStr (name p))])).
Proof.
  intros field_names fields.
  split; [intros x; apply get_field_names_allowed|].
  split; [reflexivity|].
  assert (Hnames : ProductSerializer.get_field_names (Some ["id"; "name"])
                   = ["id"; "name"]) by (vm_compute; reflexivity).
  split; [exact Hnames|].
  intros p. unfold ProductSerializer.data. rewrite Hnames. reflexivity.
Qed.

(** ** The product field of an order item *)

(** The representation of a product under its custom fields. *)
Lemma ProductSerializer_custom_data (p : Product) :
  ProductSerializer.data (Some ProductSerializer.get_custom_fields) p
  = ret (VDict [("id", VInt (product_id p)); ("name", VStr (name p));
                ("brand", VStr (brand p)); ("price", VInt (price p));
                ("is_available", VBool (is_available p))]).
Proof.
  unfold ProductSerializer.data.
  replace (ProductSerializer.get_field_names
             (Some ProductSerializer.get_custom_fields))
    with ["id"; "name"; "brand"; "price"; "is_available"]
    by (vm_compute; reflexivity).
  reflexivity.
Qed.

(** C7. On write the [product] field of an order item takes an identifier:
    when a Product has it, the field resolves to that Product; when none
    has, it fails with the model's [DoesNotExist], the not-found error. On
    read the field renders a dictionary of five entries whose keys are
    exactly [id], [name], [is_available], [brand] and [price], each
    holding the Product's value of that name; the rendering is never the
    bare identifier. *)
Theorem OrderItem_product_field :
  forall (db : DB),
    List.NoDup (map product_id (products db)) ->
    (forall k : Z,
       (exists p, In p (products db) /\ product_id p = k
                  /\ OrderItemSerializer.product_to_internal_value db k = ret p)
       \/ ((forall p, In p (products db) -> product_id p <> k)
           /\ OrderItemSerializer.product_to_internal_value db k
              = raise (DoesNotExist "Product")))
    /\ (forall p : Product,
          exists d,
            OrderItemSerializer.product_to_representation p = ret (VDict d)
            /\ length d = 5%nat
            /\ (forall f, In f (map fst d)
                          <-> In f ["id"; "name"; "is_available"; "brand";
                                    "price"])
            /\ In ("id", VInt (product_id p)) d
            /\ In ("name", VStr (name p)) d
            /\ In ("is_available", VBool (is_available p)) d
            /\ In ("brand", VStr (brand p)) d
            /\ In ("price", VInt (price p)) d
            /\ OrderItemSerializer.product_to_representation p
               <> ret (VInt (product_id p))).
Proof.
  intros db Hnd. split.
  - intros k.
    unfold OrderItemSerializer.product_to_internal_value,
      CustomRelatedField.to_internal_value.
    destruct (in_dec Z.eq_dec k (map product_id (products db))) as [Hin|Hout].
    + left. apply in_map_iff in Hin as [p [Hk Hp]]. exists p.
      repeat split; try assumption. subst k.
      apply queryset_get_present; assumption.
    + right.
      assert (Habs : forall p, In p (products db) -> product_id p <> k).
      { intros p Hp Hk. apply Hout. rewrite <- Hk. apply in_map; exact Hp. }
      split; [exact Habs|]. apply queryset_get_absent; exact Habs.
  - intros p.
    assert (Hrepr : OrderItemSerializer.product_to_representation p
                    = ret (VDict [("id", VInt (product_id p));
                                  ("name", VStr (name p));
                                  ("brand", VStr (brand p));
                                  ("price", VInt (price p));
                                  ("is_available", VBool (is_available p))]))
      by apply ProductSerializer_custom_data.
    eexists. split; [exact Hrepr|]. split; [reflexivity|].
    split; [intros f; cbn; tauto|].
    repeat (split; [cbn; tauto|]).
    rewrite Hrepr. discriminate.
Qed.

Lemma shop_db_product_keys : List.NoDup (map product_id (products shop_db)).
Proof.
  apply (NoDup_cons_iff 1 [2]). split.
  - cbn. intros [H|[]]; discriminate H.
  - apply (NoDup_cons_iff 2 []). split; [cbn; tauto | constructor].
Defined.

Lemma OrderItem_product_field_witness :
  List.NoDup (map product_id (products shop_db))
  /\ (exists d,
        OrderItemSerializer.product_to_representation shirt = ret (VDict d)
        /\ length d = 5%nat
        /\ (forall f, In f (map fst d)
                      <-> In f ["id"; "name"; "is_available"; "brand";
                                "price"])
        /\ In ("id", VInt (product_id shirt)) d
        /\ In ("name", VStr (name shirt)) d
        /\ In ("is_available", VBool (is_available shirt)) d
        /\ In ("brand", VStr (brand shirt)) d
        /\ In ("price", VInt (price shirt)) d
        /\ OrderItemSerializer.product_to_representation shirt
           <> ret (VInt (product_id shirt))).
Proof.
  split; [exact shop_db_product_keys|].
  exact (proj2 (OrderItem_product_field shop_db shop_db_product_keys) shirt).
Defined.

(** ** Listing and retrieving through a filtered queryset *)

(** Distinct keys identify the rows of a table. *)
Lemma NoDup_map_pk_inj {R : Type} (pk : R -> Z) (rows : list R) (a b : R) :
  List.NoDup (map pk rows) -> In a rows -> In b rows -> pk a = pk b -> a = b.
Proof.
  induction rows as [|r rows IH]; intros Hnd Ha Hb Hk; [destruct Ha|].
  simpl in Hnd. apply NoDup_cons_iff in Hnd as [Hnotin Hnd].
  destruct Ha as [-> | Ha], Hb as [-> | Hb].
  - reflexivity.
  - exfalso. apply Hnotin. rewrite Hk. apply in_map; exact Hb.
  - exfalso. apply Hnotin. rewrite <- Hk. apply in_map; exact Ha.
  - apply IH; assumption.
Qed.

(** A serializer that renders every row renders a list of rows. *)
Lemma data_many_total {R : Type} (data : R -> result value) (f : R -> value)
    (rows : list R) :
  (forall r, data r = ret (f r)) -> data_many data rows = ret (map f rows).
Proof.
  intros Hdata. induction rows as [|r rows IH]; simpl; [reflexivity|].
  rewrite Hdata, IH. reflexivity.
Qed.

(** A row that the queryset's filter rejects is not found through it, and
    neither is any other row under its key. *)
Lemma get_object_or_404_filtered {R : Type} (pk : R -> Z) (model : string)
    (keep : R -> bool) (rows : list R) (r : R) :
  List.NoDup (map pk rows) -> In r rows -> keep r = false ->
  get_object_or_404 pk model (List.filter keep rows) (pk r) = raise Http404.
Proof.
  intros Hnd Hin Hkeep. apply get_object_or_404_absent.
  intros r' Hr' Hk. apply filter_In in Hr' as [Hr' Hkeep'].
  assert (r' = r) by (eapply NoDup_map_pk_inj; eassumption).
  subst r'. congruence.
Qed.

Lemma ProductSerializer_default_data (p : Product) :
  ProductSerializer.data None p = ret (product_representation p).
Proof.
  unfold ProductSerializer.data.
  replace (ProductSerializer.get_field_names None)
    with ["id"; "name"; "brand"; "price"; "is_available"; "vendor"]
    by (vm_compute; reflexivity).
  reflexivity.
Qed.

(** C10. The Product controller lists and retrieves through a queryset
    filtered on [is_available], and both actions admit every caller. For a
    stored Product whose flag is false, and any caller, the listing answers
    200 with the representations of exactly the available Products, none of
    which carries the hidden Product's identifier, and its retrieval is
    answered with 404 Not Found. Neither request changes the store. *)
Theorem ProductViewSet_hides_unavailable :
  forall (chp : permission -> Caller -> bool)
         (chop : permission -> Caller -> Product -> bool)
         (c : Caller) (db : DB) (p : Product),
    List.NoDup (map product_id (products db)) ->
    In p (products db) ->
    is_available p = false ->
    ProductViewSet.dispatch chp AList c (ProductViewSet.list_ c) db
    = (ret (mkResponse 200
              (VList (map product_representation
                        (List.filter is_available (products db))))), db)
    /\ (forall p', In p' (List.filter is_available (products db)) ->
                   is_available p' = true /\ product_id p' <> product_id p)
    /\ ProductViewSet.dispatch chp ARetrieve c
         (ProductViewSet.retrieve chp chop c (product_id p)) db
       = (ret (mkResponse 404 (detail "Not found.")), db).
Proof.
  intros chp chop c db p Hnd Hin Hflag. split; [|split].
  - unfold ProductViewSet.dispatch, dispatch, ProductViewSet.list_, list_.
    cbn [ProductViewSet.get_permissions check_permissions forallb
         has_permission andb bind ret].
    unfold ProductViewSet.queryset.
    rewrite (data_many_total _ product_representation)
      by apply ProductSerializer_default_data.
    reflexivity.
  - intros p' Hp'. apply filter_In in Hp' as [Hp' Hav]. split; [exact Hav|].
    intros Hk. assert (p' = p) by (eapply NoDup_map_pk_inj; eassumption).
    subst p'. congruence.
  - unfold ProductViewSet.dispatch, dispatch, ProductViewSet.retrieve,
      retrieve, get_object.
    cbn [ProductViewSet.get_permissions check_permissions forallb
         has_permission andb bind ret].
    unfold ProductViewSet.queryset.
    rewrite get_object_or_404_filtered by assumption. reflexivity.
Qed.

Lemma catalogue_db_product_keys :
  List.NoDup (map product_id (products catalogue_db)).
Proof.
  apply (NoDup_cons_iff 1 [2; 3]). split.
  - cbn. intros [H|[H|[]]]; discriminate H.
  - apply (NoDup_cons_iff 2 [3]). split.
    + cbn. intros [H|[]]; discriminate H.
    + apply (NoDup_cons_iff 3 []). split; [cbn; tauto | constructor].
Defined.

Lemma ProductViewSet_hides_unavailable_witness :
  ProductViewSet.dispatch (fun _ _ => false) ARetrieve None
    (ProductViewSet.retrieve (fun _ _ => false) (fun _ _ _ => false) None 3)
    catalogue_db
  = (ret (mkResponse 404 (detail "Not found.")), catalogue_db).
Proof.
  refine (proj2 (proj2 (ProductViewSet_hides_unavailable
                          (fun _ _ => false) (fun _ _ _ => false) None
                          catalogue_db old_hat catalogue_db_product_keys
                          _ _))).
  - cbn. tauto.
  - reflexivity.
Defined.

(** ** Soft deletion of users *)

Lemma UserSerializer_data_total (u : User) :
  UserSerializer.data u = ret (user_representation u).
Proof.
  unfold UserSerializer.data.
  replace (List.filter (fun f => negb (UserSerializer.write_only f))
             UserSerializer.get_field_names)
    with ["id"; "auth_token"; "email"; "is_staff"; "is_active"; "is_vendor"]
    by (vm_compute; reflexivity).
  reflexivity.
Qed.

(** After the deactivated row is saved, no row of the active queryset has
    its key. *)
Lemma queryset_after_deactivation (db : DB) (u r : User) :
  In r (UserViewSet.queryset
          (set_users (save_row user_id (deactivated u) (users db)) db)) ->
  user_id r <> user_id u.
Proof.
  unfold UserViewSet.queryset. cbn [users set_users].
  intros Hr. apply filter_In in Hr as [Hr Hact].
  apply save_row_inv in Hr as [-> | [_ Hne]]; [discriminate Hact | exact Hne].
Qed.

(** The active queryset after [u] is deactivated is the active rows of the
    table before, the rows under the key of [u] left out. *)
Lemma queryset_after_destroy (db : DB) (u : User) :
  UserViewSet.queryset
    (set_users (save_row user_id (deactivated u) (users db)) db)
  = List.filter (fun r => is_active r && negb (user_id r =? user_id u))
      (users db).
Proof.
  unfold UserViewSet.queryset, save_row. cbn [users set_users].
  change (user_id (deactivated u)) with (user_id u).
  induction (users db) as [|r rows IH]; [reflexivity|].
  cbn [map List.filter].
  destruct (Z.eqb_spec (user_id r) (user_id u)) as [Heq|Hne].
  - cbn [deactivated is_active negb andb]. rewrite andb_false_r. exact IH.
  - cbn [negb]. rewrite andb_true_r. rewrite IH. reflexivity.
Qed.

(** A staff caller passes the gate of the User retrieve and list actions,
    whatever the [IsUser] class decides. *)
Lemma UserViewSet_gate_admits_staff (chp : permission -> Caller -> bool)
    (act : action) (admin : User) :
  act = ARetrieve \/ act = AList -> is_staff admin = true ->
  check_permissions chp (UserViewSet.get_permissions act) (Some admin)
  = ret tt.
Proof.
  intros [-> | ->] Hstaff; unfold check_permissions; simpl;
    rewrite Hstaff, ?orb_true_r; reflexivity.
Qed.

(** C4, as the code has it. For an active stored User and a caller that the
    [IsUser] class admits, [destroy] answers 204, sets [is_active] to false
    and keeps the record in the store under its key. Afterwards the record
    is outside the controller's queryset, which holds active users only:
    for a staff caller the listing leaves it out and its retrieval is
    answered with 404 Not Found. The same holds of every caller: whoever
    passes the gate of retrieve, staff or admitted by [IsUser], gets 404,
    any other caller gets the gate's denial, 401 when anonymous and 403
    otherwise, and nobody gets a 200 response; the listing is answered
    to staff only and leaves the record out. *)
Theorem UserViewSet_destroy_soft :
  forall (chp : permission -> Caller -> bool)
         (chop : permission -> Caller -> User -> bool)
         (c : Caller) (db : DB) (u : User),
    List.NoDup (map user_id (users db)) ->
    In u (users db) ->
    is_active u = true ->
    chp IsUser c = true ->
    chop IsUser c u = true ->
    let db' := set_users (save_row user_id (deactivated u) (users db)) db in
    UserViewSet.dispatch chp ADestroy c
      (UserViewSet.destroy chp chop c (user_id u)) db
    = (ret (mkResponse 204 VNull), db')
    /\ In (deactivated u) (users db')
    /\ map user_id (users db') = map user_id (users db)
    /\ (forall r, In r (UserViewSet.queryset db') -> user_id r <> user_id u)
    /\ (forall admin : User, is_staff admin = true ->
          UserViewSet.dispatch chp ARetrieve (Some admin)
            (UserViewSet.retrieve chp chop (Some admin) (user_id u)) db'
          = (ret (mkResponse 404 (detail "Not found.")), db')
          /\ UserViewSet.dispatch chp AList (Some admin)
               (UserViewSet.list_ (Some admin)) db'
             = (ret (mkResponse 200
                       (VList (map user_representation
                                 (UserViewSet.queryset db')))), db'))
    /\ (forall c' : Caller,
          UserViewSet.dispatch chp ARetrieve c'
            (UserViewSet.retrieve chp chop c' (user_id u)) db'
          = (if chp IsUser c' || caller_is_staff c'
             then ret (mkResponse 404 (detail "Not found."))
             else match c' with
                  | None =>
                      ret (mkResponse 401
                             (detail
                                "Authentication credentials were not provided."))
                  | Some _ =>
                      ret (mkResponse 403
                             (detail
                                "You do not have permission to perform this action."))
                  end, db'))
    /\ (forall (c' : Caller) (d : value),
          fst (UserViewSet.dispatch chp ARetrieve c'
                 (UserViewSet.retrieve chp chop c' (user_id u)) db')
          <> ret (mkResponse 200 d))
    /\ (forall c' : Caller,
          UserViewSet.dispatch chp AList c' (UserViewSet.list_ c') db'
          = (if caller_is_staff c'
             then ret (mkResponse 200
                         (VList (map user_representation
                                   (List.filter
                                      (fun r => is_active r
                                                && negb (user_id r =? user_id u))
                                      (users db)))))
             else match c' with
                  | None =>
                      ret (mkResponse 401
                             (detail
                                "Authentication credentials were not provided."))
                  | Some _ =>
                      ret (mkResponse 403
                             (detail
                                "You do not have permission to perform this action."))
                  end, db')).
Proof.
  intros chp chop c db u Hnd Hin Hact Hgate Hobj db'.
  assert (Hretrieve : forall c' : Caller,
    UserViewSet.dispatch chp ARetrieve c'
      (UserViewSet.retrieve chp chop c' (user_id u)) db'
    = (if chp IsUser c' || caller_is_staff c'
       then ret (mkResponse 404 (detail "Not found."))
       else match c' with
            | None =>
                ret (mkResponse 401
                       (detail "Authentication credentials were not provided."))
            | Some _ =>
                ret (mkResponse 403
                       (detail
                          "You do not have permission to perform this action."))
            end, db')).
  { intros c'. unfold UserViewSet.dispatch, dispatch, check_permissions.
    cbn [UserViewSet.get_permissions forallb has_permission].
    rewrite andb_true_r.
    destruct (chp IsUser c' || caller_is_staff c').
    - cbn [bind ret]. unfold UserViewSet.retrieve, retrieve, get_object.
      rewrite get_object_or_404_absent; [reflexivity|].
      intros r. apply queryset_after_deactivation.
    - destruct c'; reflexivity. }
  split; [|split; [|split; [|split; [|split; [|split; [|split]]]]]].
  - unfold UserViewSet.dispatch, dispatch, UserViewSet.destroy,
      UserViewSet.get_object, get_object.
    unfold check_permissions, check_object_permissions,
      UserViewSet.queryset.
    cbn [UserViewSet.get_permissions forallb has_permission].
    rewrite Hgate. cbn [andb bind ret].
    rewrite get_object_or_404_present;
      [| apply NoDup_map_filter; exact Hnd
       | apply filter_In; split; assumption].
    cbn [bind ret forallb has_object_permission]. rewrite Hobj. reflexivity.
  - subst db'. cbn [users set_users]. apply save_row_In.
    cbn [user_id deactivated]. apply in_map; exact Hin.
  - subst db'. cbn [users set_users]. apply save_row_keys.
  - intros r. apply queryset_after_deactivation.
  - intros admin Hstaff. split.
    + unfold UserViewSet.dispatch, dispatch.
      rewrite UserViewSet_gate_admits_staff by auto.
      unfold UserViewSet.retrieve, retrieve, get_object.
      rewrite get_object_or_404_absent; [reflexivity|].
      intros r. apply queryset_after_deactivation.
    + unfold UserViewSet.dispatch, dispatch.
      rewrite UserViewSet_gate_admits_staff by auto.
      unfold UserViewSet.list_, list_.
      rewrite (data_many_total _ user_representation)
        by apply UserSerializer_data_total.
      reflexivity.
  - exact Hretrieve.
  - intros c' d. rewrite Hretrieve. cbn [fst].
    destruct (chp IsUser c' || caller_is_staff c'); [discriminate|].
    destruct c'; discriminate.
  - intros c'. subst db'.
    unfold UserViewSet.dispatch, dispatch, check_permissions.
    cbn [UserViewSet.get_permissions forallb has_permission].
    rewrite andb_true_r.
    destruct (caller_is_staff c'); [|destruct c'; reflexivity].
    cbn [bind ret]. unfold UserViewSet.list_, list_.
    rewrite (data_many_total _ user_representation)
      by apply UserSerializer_data_total.
    cbn [bind ret]. rewrite (queryset_after_destroy db u).
    reflexivity.
Qed.

Lemma accounts_db_user_keys : List.NoDup (map user_id (users accounts_db)).
Proof.
  apply (NoDup_cons_iff 1 [2]). split.
  - cbn. intros [H|[]]; discriminate H.
  - apply (NoDup_cons_iff 2 []). split; [cbn; tauto | constructor].
Defined.

Lemma UserViewSet_destroy_soft_witness :
  UserViewSet.dispatch self_has_permission ADestroy (Some alice)
    (UserViewSet.destroy self_has_permission self_has_object_permission
       (Some alice) 1) accounts_db
  = (ret (mkResponse 204 VNull),
     set_users (save_row user_id (deactivated alice) (users accounts_db))
       accounts_db).
Proof.
  refine (proj1 (UserViewSet_destroy_soft self_has_permission
                   self_has_object_permission (Some alice) accounts_db alice
                   accounts_db_user_keys _ _ _ _)).
  - cbn. tauto.
  - reflexivity.
  - reflexivity.
  - reflexivity.
Defined.

(** C4, as the spec has it, fails. Before [alice] deletes her account the
    administrator retrieves her record. Afterwards the record is still in
    the store, inactive, but the administrator's retrieval is answered with
    404 Not Found: no 200 response carries the record. *)
Lemma destroyed_user_not_retrievable_by_admin :
  fst (UserViewSet.dispatch self_has_permission ARetrieve (Some root)
         (UserViewSet.retrieve self_has_permission
            self_has_object_permission (Some root) 1) accounts_db)
  = ret (mkResponse 200 (user_representation alice))
  /\ is_staff root = true
  /\ In (deactivated alice) (users accounts_after_destroy)
  /\ fst (UserViewSet.dispatch self_has_permission ARetrieve (Some root)
            (UserViewSet.retrieve self_has_permission
               self_has_object_permission (Some root) 1)
            accounts_after_destroy)
     = ret (mkResponse 404 (detail "Not found."))
  /\ ~ (exists d,
          fst (UserViewSet.dispatch self_has_permission ARetrieve (Some root)
                 (UserViewSet.retrieve self_has_permission
                    self_has_object_permission (Some root) 1)
                 accounts_after_destroy)
          = ret (mkResponse 200 d)).
Proof.
  assert (Hafter :
    fst (UserViewSet.dispatch self_has_permission ARetrieve (Some root)
           (UserViewSet.retrieve self_has_permission
              self_has_object_permission (Some root) 1)
           accounts_after_destroy)
    = ret (mkResponse 404 (detail "Not found.")))
    by (vm_compute; reflexivity).
  split; [vm_compute; reflexivity|].
  split; [reflexivity|].
  split; [vm_compute; left; reflexivity|].
  split; [exact Hafter|].
  intros [d Hd]. rewrite Hafter in Hd. discriminate Hd.
Qed.

(** ** Creating users *)

(** The key of an insert is none of the keys in the table. *)
Lemma next_pk_unused {R : Type} (pk : R -> Z) (rows : list R) :
  ~ In (next_pk pk rows) (map pk rows).
Proof.
  assert (Habove : forall k, In k (map pk rows) -> k < next_pk pk rows).
  { unfold next_pk. induction rows as [|r rows IH]; intros k Hk;
      [destruct Hk|].
    cbn [map fold_right] in *. destruct Hk as [<- | Hk]; [lia|].
    specialize (IH k Hk). lia. }
  intros Hin. apply Habove in Hin. lia.
Qed.

(** The fields of the user serializer that take input. *)
Lemma UserSerializer_writable :
  List.filter (fun f => negb (UserSerializer.read_only f))
    UserSerializer.get_field_names
  = ["password"; "email"].
Proof. vm_compute. reflexivity. Qed.

Lemma UserSerializer_to_internal_value_ok
    (clean : string -> value -> string + value) (legacy_defaults : bool)
    (data : gmap string value) (raw_password raw_email : value)
    (plaintext e : string) :
  data !! "password" = Some raw_password ->
  clean "password" raw_password = inr (VStr plaintext) ->
  data !! "email" = Some raw_email ->
  clean "email" raw_email = inr (VStr e) ->
  UserSerializer.to_internal_value clean legacy_defaults data
  = ret (validated_user legacy_defaults plaintext e).
Proof.
  intros Hp Hcp He Hce. unfold UserSerializer.to_internal_value.
  rewrite UserSerializer_writable. cbn [UserSerializer.run_fields].
  rewrite He, Hp, Hce. cbn [bind ret]. rewrite Hcp. cbn.
  destruct legacy_defaults; reflexivity.
Qed.

(** Validation reads the request at the writable fields only. *)
Lemma UserSerializer_to_internal_value_reads
    (clean : string -> value -> string + value) (legacy_defaults : bool)
    (d1 d2 : gmap string value) :
  d1 !! "password" = d2 !! "password" ->
  d1 !! "email" = d2 !! "email" ->
  UserSerializer.to_internal_value clean legacy_defaults d1
  = UserSerializer.to_internal_value clean legacy_defaults d2.
Proof.
  intros Hp He. unfold UserSerializer.to_internal_value.
  rewrite UserSerializer_writable. cbn [UserSerializer.run_fields].
  rewrite He, Hp. reflexivity.
Qed.

(** Saving validated data with a password keyword: the keyword is what is
    stored, and the three flags fall to their defaults. *)
Lemma UserSerializer_save_validated (dflt : UserDefaults)
    (legacy_defaults : bool) (plaintext e h : string) (db : DB) :
  UserSerializer.save dflt (validated_user legacy_defaults plaintext e)
    {["password" := VStr h]} db
  = let u := mkUser (next_pk user_id (users db)) e h
               (default_is_active dflt) (default_is_staff dflt)
               (if legacy_defaults then false else default_is_vendor dflt) in
    ret (u, set_users (users db ++ [u]) db).
Proof.
  unfold UserSerializer.save, UserSerializer.objects_create.
  rewrite bool_decide_eq_true_2.
  2:{ intros k. unfold validated_user. destruct legacy_defaults;
      rewrite dom_union_L, !dom_insert_L, dom_singleton_L, dom_empty_L;
      rewrite !elem_of_union, !elem_of_singleton, elem_of_empty,
        list_elem_of_In;
      cbn; intuition (subst; auto 10). }
  unfold UserSerializer.column_str, UserSerializer.column_bool, validated_user.
  destruct legacy_defaults; simplify_map_eq; reflexivity.
Qed.

(** C8. A create request whose password and email pass the validation of
    their fields stores a new User whose password is the hash of the
    submitted plaintext, as validation hands it on, and not the plaintext,
    since the hasher maps no string to itself; whose [is_active] and
    [is_staff] are the model's defaults; and whose [is_vendor] is its
    default. The user is appended to the users and nothing else is
    written. A second request that differs from the first only at the keys
    [is_active], [is_staff] and [is_vendor] has the same outcome: the same
    user, with the same three flags, in the same store. *)
Theorem UserViewSet_create_hashes_and_defaults :
  forall (make_password : string -> string) (dflt : UserDefaults)
         (legacy_defaults : bool)
         (clean : DB -> string -> value -> string + value)
         (data : gmap string value) (db : DB)
         (raw_password raw_email : value) (plaintext e : string),
    (forall s, make_password s <> s) ->
    data !! "password" = Some raw_password ->
    clean db "password" raw_password = inr (VStr plaintext) ->
    data !! "email" = Some raw_email ->
    clean db "email" raw_email = inr (VStr e) ->
    exists u db',
      UserViewSet.create make_password dflt legacy_defaults clean data db
      = ret (u, db')
      /\ users db' = users db ++ [u]
      /\ products db' = products db /\ sizes db' = sizes db
      /\ vendors db' = vendors db /\ orders db' = orders db
      /\ ~ In (user_id u) (map user_id (users db))
      /\ email u = e
      /\ password u = make_password plaintext
      /\ password u <> plaintext
      /\ is_active u = default_is_active dflt
      /\ is_staff u = default_is_staff dflt
      /\ is_vendor u
         = (if legacy_defaults then false else default_is_vendor dflt)
      /\ (forall data' : gmap string value,
            (forall k, k <> "is_active" -> k <> "is_staff" ->
                       k <> "is_vendor" -> data' !! k = data !! k) ->
            UserViewSet.create make_password dflt legacy_defaults clean
              data' db = ret (u, db')).
Proof.
  intros make_password dflt legacy_defaults clean data db raw_password
    raw_email plaintext e Hhash Hp Hcp He Hce.
  assert (Hcreate : forall d : gmap string value,
            d !! "password" = data !! "password" ->
            d !! "email" = data !! "email" ->
            UserViewSet.create make_password dflt legacy_defaults clean d db
            = let u := mkUser (next_pk user_id (users db)) e
                         (make_password plaintext) (default_is_active dflt)
                         (default_is_staff dflt)
                         (if legacy_defaults then false
                          else default_is_vendor dflt) in
              ret (u, set_users (users db ++ [u]) db)).
  { intros d Hdp Hde. unfold UserViewSet.create.
    rewrite (UserSerializer_to_internal_value_reads _ _ d data)
      by assumption.
    rewrite (UserSerializer_to_internal_value_ok _ _ _ raw_password
               raw_email plaintext e) by assumption.
    cbn [bind ret]. unfold UserViewSet.perform_create.
    replace (validated_user legacy_defaults plaintext e !! "password")
      with (Some (VStr plaintext))
      by (unfold validated_user; destruct legacy_defaults;
          simplify_map_eq; reflexivity).
    cbn [bind ret]. apply UserSerializer_save_validated. }
  eexists _, _. split; [apply Hcreate; reflexivity|].
  cbn [users products sizes vendors orders set_users user_id email password
       is_active is_staff is_vendor].
  repeat (split; [reflexivity|]).
  split; [apply next_pk_unused|].
  repeat (split; [reflexivity|]).
  split; [apply Hhash|].
  repeat (split; [reflexivity|]).
  intros data' Hsame. apply Hcreate; apply Hsame; discriminate.
Qed.

Lemma tagged_hash_changes (s : string) : tagged_hash s <> s.
Proof.
  intros H. apply (f_equal String.length) in H.
  change (String.length (tagged_hash s))
    with (4 + String.length s)%nat in H.
  lia.
Defined.

Lemma UserViewSet_create_hashes_and_defaults_witness :
  exists u db',
    UserViewSet.create tagged_hash (mkUserDefaults true false false) false
      nonblank_string signup_data accounts_db
    = ret (u, db')
    /\ users db' = users accounts_db ++ [u]
    /\ products db' = products accounts_db /\ sizes db' = sizes accounts_db
    /\ vendors db' = vendors accounts_db /\ orders db' = orders accounts_db
    /\ ~ In (user_id u) (map user_id (users accounts_db))
    /\ email u = "eve@shop.test"
    /\ password u = tagged_hash "hunter2"
    /\ password u <> "hunter2"
    /\ is_active u = true
    /\ is_staff u = false
    /\ is_vendor u = false
    /\ (forall data' : gmap string value,
          (forall k, k <> "is_active" -> k <> "is_staff" ->
                     k <> "is_vendor" -> data' !! k = signup_data !! k) ->
          UserViewSet.create tagged_hash (mkUserDefaults true false false)
            false nonblank_string data' accounts_db = ret (u, db')).
Proof.
  refine (UserViewSet_create_hashes_and_defaults tagged_hash
            (mkUserDefaults true false false) false nonblank_string
            signup_data accounts_db (VStr "hunter2") (VStr "eve@shop.test")
            "hunter2" "eve@shop.test" tagged_hash_changes _ _ _ _);
    reflexivity.
Defined.

(** ** Creating vendors *)

(** The outcome of [perform_create] when the model has the [user] column
    and the validated data holds columns only. *)
Lemma VendorViewSet_perform_create_eq (info : ModelInfo) (u : User)
    (vd : gmap string value) (db : DB) :
  "user" ∈ columns info ->
  (forall k, k ∈ dom vd -> k ∈ columns info) ->
  VendorViewSet.perform_create info u vd db
  = let v := mkVendor (next_pk vendor_id (vendors db))
               (<["user" := VInt (user_id u)]> vd) in
    ret (v, vendor_created u v db).
Proof.
  intros Hcol Hkeys. unfold VendorViewSet.perform_create,
    VendorSerializer.save, VendorSerializer.objects_create.
  rewrite <- insert_union_singleton_l.
  rewrite bool_decide_eq_true_2.
  - cbn [bind ret]. unfold vendor_created.
    destruct (is_vendor u); reflexivity.
  - intros k. rewrite dom_insert_L, elem_of_union, elem_of_singleton.
    intros [-> | Hk]; [exact Hcol | apply Hkeys; exact Hk].
Qed.

(** The outcome of creating a vendor from a body that validation
    accepts. *)
Lemma VendorViewSet_create_accepted (info : ModelInfo)
    (clean : DB -> gmap string value -> string + gmap string value)
    (u : User) (data vd : gmap string value) (db : DB) :
  "user" ∈ columns info ->
  clean db (delete "owner" data) = inr vd ->
  (forall k, k ∈ dom vd -> k ∈ columns info) ->
  VendorViewSet.create info clean u data db
  = let v := mkVendor (next_pk vendor_id (vendors db))
               (<["user" := VInt (user_id u)]> vd) in
    ret (v, vendor_created u v db).
Proof.
  intros Hcol Hclean Hkeys.
  unfold VendorViewSet.create, VendorSerializer.to_internal_value.
  rewrite Hclean. cbn [bind ret].
  apply VendorViewSet_perform_create_eq; assumption.
Qed.

(** A user that is a vendor already is the row [perform_create] would
    save. *)
Lemma promoted_vendor (u : User) : is_vendor u = true -> promoted u = u.
Proof. destruct u. cbn. intros ->. reflexivity. Qed.

(** When the model has no column for the [user] keyword, the insert is a
    [TypeError] and nothing is stored. *)
Lemma VendorViewSet_create_unknown_keyword (info : ModelInfo) (u : User)
    (vd : gmap string value) (db : DB) :
  "user" ∉ columns info ->
  VendorViewSet.perform_create info u vd db
  = raise (TypeError "Vendor() got unexpected keyword arguments").
Proof.
  intros Hcol. unfold VendorViewSet.perform_create,
    VendorSerializer.save, VendorSerializer.objects_create.
  rewrite bool_decide_eq_false_2; [reflexivity|].
  intros Hall. apply Hcol. apply Hall.
  rewrite dom_union_L, dom_singleton_L. apply elem_of_union.
  left. apply elem_of_singleton. reflexivity.
Qed.

(** C5. [perform_create] saves the new Vendor with the caller as the [user]
    keyword, which is how the code names the owning User. Provided the
    Vendor model has that column, every create request of a stored User [u]
    whose body the field validation accepts succeeds: one Vendor is
    appended, bound to [u] whatever the body holds at [user], and the
    body's [owner] is ignored, the outcome being the same for every value
    written there. Afterwards [u]'s stored row has [is_vendor] true and no
    key of the users has changed; if the flag was true already, the users
    are untouched. Creating a second Vendor afterwards succeeds again,
    appends a second Vendor bound to [u], and leaves the users, the flag
    included, as they are. *)
Theorem VendorViewSet_create_binds_and_promotes :
  forall (info : ModelInfo)
         (clean : DB -> gmap string value -> string + gmap string value)
         (u : User) (data vd : gmap string value) (db : DB),
    "user" ∈ columns info ->
    clean db (delete "owner" data) = inr vd ->
    (forall k, k ∈ dom vd -> k ∈ columns info) ->
    In u (users db) ->
    exists v db',
      VendorViewSet.create info clean u data db = ret (v, db')
      /\ vendors db' = vendors db ++ [v]
      /\ vendor_columns v !! "user" = Some (VInt (user_id u))
      /\ (forall k, k <> "user" -> vendor_columns v !! k = vd !! k)
      /\ (forall x : value,
            VendorViewSet.create info clean u (<["owner" := x]> data) db
            = ret (v, db'))
      /\ In (promoted u) (users db')
      /\ map user_id (users db') = map user_id (users db)
      /\ (is_vendor u = true -> users db' = users db)
      /\ (forall data2 vd2 : gmap string value,
            clean db' (delete "owner" data2) = inr vd2 ->
            (forall k, k ∈ dom vd2 -> k ∈ columns info) ->
            exists v2 db'',
              VendorViewSet.create info clean (promoted u) data2 db'
              = ret (v2, db'')
              /\ vendors db'' = vendors db ++ [v; v2]
              /\ vendor_columns v2 !! "user" = Some (VInt (user_id u))
              /\ users db'' = users db').
Proof.
  intros info clean u data vd db Hcol Hclean Hkeys Hin.
  eexists _, _.
  split; [apply (VendorViewSet_create_accepted info clean u data vd);
          assumption|].
  cbv zeta. cbn [vendor_columns].
  assert (Hvendors : forall w x s,
            vendors (vendor_created w x s) = vendors s ++ [x]).
  { intros w x s. unfold vendor_created. destruct (is_vendor w); reflexivity. }
  split; [apply Hvendors|].
  split; [apply lookup_insert_eq|].
  split; [intros k Hk; apply lookup_insert_ne; congruence|].
  split.
  { intros x.
    apply (VendorViewSet_create_accepted info clean u _ vd); try assumption.
    rewrite delete_insert_eq. exact Hclean. }
  assert (Husers : users (vendor_created u
                            (mkVendor (next_pk vendor_id (vendors db))
                               (<["user" := VInt (user_id u)]> vd)) db)
                   = if is_vendor u then users db
                     else save_row user_id (promoted u) (users db)).
  { unfold vendor_created. destruct (is_vendor u); reflexivity. }
  rewrite Husers.
  split.
  { destruct (is_vendor u) eqn:Hflag.
    - rewrite promoted_vendor by exact Hflag. exact Hin.
    - apply save_row_In. cbn [user_id promoted].
      apply (in_map user_id); exact Hin. }
  split; [destruct (is_vendor u); [reflexivity | apply save_row_keys]|].
  split; [intros ->; reflexivity|].
  intros data2 vd2 Hclean2 Hkeys2. eexists _, _.
  split; [apply (VendorViewSet_create_accepted info clean _ data2 vd2);
          assumption|].
  cbv zeta. cbn [vendor_columns].
  split; [rewrite !Hvendors, <- app_assoc; reflexivity|].
  split; [apply lookup_insert_eq|].
  assert (Hkept : forall w x s,
            is_vendor w = true -> users (vendor_created w x s) = users s).
  { intros w x s Hw. unfold vendor_created. rewrite Hw. reflexivity. }
  rewrite Hkept by reflexivity. exact Husers.
Qed.

Lemma VendorViewSet_create_binds_and_promotes_witness :
  exists v db',
    VendorViewSet.create vendor_info name_required alice storefront_data
      accounts_db = ret (v, db')
    /\ vendors db' = vendors accounts_db ++ [v]
    /\ vendor_columns v !! "user" = Some (VInt (user_id alice))
    /\ (forall k, k <> "user" ->
          vendor_columns v !! k
          = ({[ "name" := VStr "Alice's" ]} : gmap string value) !! k)
    /\ (forall x : value,
          VendorViewSet.create vendor_info name_required alice
            (<["owner" := x]> storefront_data) accounts_db
          = ret (v, db'))
    /\ In (promoted alice) (users db')
    /\ map user_id (users db') = map user_id (users accounts_db)
    /\ (is_vendor alice = true -> users db' = users accounts_db)
    /\ (forall data2 vd2 : gmap string value,
          name_required db' (delete "owner" data2) = inr vd2 ->
          (forall k, k ∈ dom vd2 -> k ∈ columns vendor_info) ->
          exists v2 db'',
            VendorViewSet.create vendor_info name_required (promoted alice)
              data2 db'
            = ret (v2, db'')
            /\ vendors db'' = vendors accounts_db ++ [v; v2]
            /\ vendor_columns v2 !! "user" = Some (VInt (user_id alice))
            /\ users db'' = users db').
Proof.
  refine (VendorViewSet_create_binds_and_promotes vendor_info name_required
            alice storefront_data {[ "name" := VStr "Alice's" ]} accounts_db
            _ _ _ _).
  - apply list_elem_of_In. cbn. tauto.
  - reflexivity.
  - intros k Hk. apply elem_of_dom in Hk as [x Hx].
    apply lookup_singleton_Some in Hx as [<- _].
    apply list_elem_of_In. cbn. tauto.
  - cbn. tauto.
Defined.

(** ** The inventory invariant under size writes *)

(** C1 fails on this input. The store satisfies the invariant; the update
    carries no quantity, so [validate] checks nothing and the write goes
    through; afterwards the scarf, of quantity 1, has a size of quantity 5,
    and the invariant is broken. A later create of quantity 0 under the
    scarf is accepted too, although the other sizes already exceed it. *)
Theorem size_move_breaks_inventory :
  forall dflt : SizeDefaults,
    inventory_ok stock_db = true
    /\ size_write dflt stock_db move_to_scarf
       = ret (mkSize 1 2 "M" 5 true,
              set_sizes [mkSize 1 2 "M" 5 true] stock_db)
    /\ sum (map size_quantity
              (SizeSerializer.variant_sizes
                 (size_step dflt stock_db move_to_scarf) scarf)) = 5
    /\ product_quantity scarf = 1
    /\ inventory_ok (size_step dflt stock_db move_to_scarf) = false
    /\ SizeSerializer.validate (size_step dflt stock_db move_to_scarf) None
         (mkSizeAttrs (Some scarf) (Some "S") (Some 0) None)
       = ret (mkSizeAttrs (Some scarf) (Some "S") (Some 0) None).
Proof.
  intros dflt. repeat split.
Qed.

(** *** Sums over filtered tables *)

Section TableSums.
Context {R : Type}.
Variable pk : R -> Z.
Variable qty : R -> Z.

Lemma filter_filter_andb (f g : R -> bool) (rows : list R) :
  List.filter g (List.filter f rows)
  = List.filter (fun r => f r && g r) rows.
Proof.
  induction rows as [|r rows IH]; simpl; [reflexivity|].
  destruct (f r); simpl; [|exact IH].
  destruct (g r); simpl; rewrite IH; reflexivity.
Qed.

Lemma sum_filter_app (f : R -> bool) (l1 l2 : list R) :
  sum (map qty (List.filter f (l1 ++ l2)))
  = sum (map qty (List.filter f l1)) + sum (map qty (List.filter f l2)).
Proof.
  induction l1 as [|r l1 IH]; simpl; [reflexivity|].
  destruct (f r); simpl; rewrite IH; lia.
Qed.

(** Narrowing the filter cannot raise the sum of quantities that are not
    negative. *)
Lemma sum_filter_narrow (f g : R -> bool) (rows : list R) :
  Forall (fun r => 0 <= qty r) rows ->
  sum (map qty (List.filter (fun r => f r && g r) rows))
  <= sum (map qty (List.filter f rows)).
Proof.
  induction 1 as [|r rows Hr _ IH]; simpl; [lia|].
  destruct (f r), (g r); simpl; lia.
Qed.

(** Saving over a key that the table does not hold changes nothing. *)
Lemma save_row_absent (r : R) (rows : list R) :
  ~ In (pk r) (map pk rows) -> save_row pk r rows = rows.
Proof.
  unfold save_row. induction rows as [|old rows IH]; simpl; [reflexivity|].
  intros Hout. destruct (Z.eqb_spec (pk old) (pk r)) as [Heq|_].
  - exfalso. apply Hout. left; exact Heq.
  - rewrite IH; [reflexivity | tauto].
Qed.

Lemma filter_other_keys (f : R -> bool) (k : Z) (rows : list R) :
  ~ In k (map pk rows) ->
  List.filter (fun r => f r && negb (pk r =? k)) rows = List.filter f rows.
Proof.
  induction rows as [|r rows IH]; simpl; [reflexivity|].
  intros Hout. destruct (Z.eqb_spec (pk r) k) as [Heq|_]; [tauto|].
  rewrite andb_true_r, IH by tauto. reflexivity.
Qed.

(** The filtered sum after a save: the saved row replaces the row that had
    its key. *)
Lemma sum_filter_save_row (f : R -> bool) (r : R) (rows : list R) :
  List.NoDup (map pk rows) -> In (pk r) (map pk rows) ->
  sum (map qty (List.filter f (save_row pk r rows)))
  = sum (map qty (List.filter (fun x => f x && negb (pk x =? pk r)) rows))
    + (if f r then qty r else 0).
Proof.
  induction rows as [|old rows IH]; intros Hnd Hin; [destruct Hin|].
  simpl in Hnd. apply NoDup_cons_iff in Hnd as [Hout Hnd].
  change (save_row pk r (old :: rows))
    with ((if pk old =? pk r then r else old) :: save_row pk r rows).
  cbn [List.filter].
  destruct (Z.eqb_spec (pk old) (pk r)) as [Heq|Hne].
  - rewrite Heq in Hout. rewrite save_row_absent by exact Hout.
    rewrite andb_false_r, filter_other_keys by exact Hout.
    destruct (f r); simpl; lia.
  - destruct Hin as [Heq|Hin]; [congruence|].
    rewrite andb_true_r.
    destruct (f old); simpl; rewrite IH by assumption; lia.
Qed.

(** The key of an insert is above every key of the table. *)
Lemma next_pk_above (rows : list R) (r : R) :
  In r rows -> pk r < next_pk pk rows.
Proof.
  unfold next_pk. induction rows as [|x rows IH]; intros Hin; [destruct Hin|].
  simpl. destruct Hin as [-> | Hin]; [lia|]. specialize (IH Hin). lia.
Qed.

Lemma next_pk_fresh (rows : list R) : ~ In (next_pk pk rows) (map pk rows).
Proof.
  intros Hin. apply in_map_iff in Hin as [r [Heq Hr]].
  apply next_pk_above in Hr. lia.
Qed.
End TableSums.

Lemma get_object_or_404_sound {R : Type} (pk : R -> Z) (model : string)
    (qs : list R) (k : Z) (r : R) :
  get_object_or_404 pk model qs k = ret r -> In r qs /\ pk r = k.
Proof.
  unfold get_object_or_404. intros H. apply (queryset_get_sound pk model).
  destruct (queryset_get pk model qs k) as [[]|r']; try discriminate H;
    exact H.
Qed.

(** *** What size writes preserve *)

Lemma inventory_ok_spec (db : DB) :
  inventory_ok db = true
  <-> forall p, In p (products db) ->
        sum (map size_quantity (SizeSerializer.variant_sizes db p))
        <= product_quantity p.
Proof.
  unfold inventory_ok. rewrite forallb_forall.
  split; intros H p Hp; specialize (H p Hp); lia.
Qed.

(** Field-level validation hands the attributes on unchanged, and only
    when no size label is written: [validate_size] never returns. *)
Lemma validate_fields_accepts_inv (dflt : SizeDefaults) (db : DB)
    (instance : option Size) (attrs checked : SizeAttrs) :
  SizeSerializer.validate_fields dflt db instance attrs = ret checked ->
  checked = attrs /\ attr_size attrs = None.
Proof.
  unfold SizeSerializer.validate_fields.
  destruct (attr_size attrs) as [v|].
  - unfold SizeSerializer.validate_size, SizeSerializer.validate_size_in.
    rewrite SizeChart_unbound. discriminate.
  - cbn [bind ret]. destruct instance as [i|].
    + intros [= <-]. split; reflexivity.
    + destruct (SizeSerializer.required_fields_present dflt attrs);
        [intros [= <-]; split; reflexivity | discriminate].
Qed.

(** What an accepted validation establishes. *)
Lemma validate_accepts_inv (db : DB) (instance : option Size)
    (attrs validated : SizeAttrs) :
  SizeSerializer.validate db instance attrs = ret validated ->
  validated = attrs
  /\ (forall q, attr_quantity attrs = Some q -> q <> 0 ->
        exists v,
          SizeSerializer.variant_or_instance db instance attrs = ret v
          /\ sum (map size_quantity
                    (match instance with
                     | Some i =>
                         queryset_exclude size_id
                           (SizeSerializer.variant_sizes db v) (size_id i)
                     | None => SizeSerializer.variant_sizes db v
                     end)) + q <= product_quantity v).
Proof.
  unfold SizeSerializer.validate, ModelSerializer.validate.
  destruct (attr_quantity attrs) as [q|].
  2:{ intros [= <-]. split; [reflexivity | discriminate]. }
  destruct (Z.eqb_spec q 0) as [-> | Hne].
  { intros [= <-]. split; [reflexivity|]. intros q' [= <-] Hq'. lia. }
  destruct (SizeSerializer.variant_or_instance db instance attrs) as [e|v];
    cbn [bind ret]; [discriminate|].
  match goal with |- context [?a >? ?b] => destruct (Z.gtb_spec a b) end;
    [discriminate|].
  intros [= <-]. split; [reflexivity|].
  intros q' [= <-] _. exists v. split; [reflexivity | lia].
Qed.

(** The variant the check resolves is a stored product, and its key is the
    one the written row will carry. *)
Lemma variant_or_instance_sound (db : DB) (i : Size) (attrs : SizeAttrs)
    (v : Product) :
  (forall w, attr_variant attrs = Some w -> In w (products db)) ->
  SizeSerializer.variant_or_instance db (Some i) attrs = ret v ->
  In v (products db)
  /\ product_id v = variant (SizeSerializer.set_attrs i attrs).
Proof.
  intros Hstored.
  unfold SizeSerializer.variant_or_instance, SizeSerializer.set_attrs.
  cbn [variant].
  destruct (attr_variant attrs) as [w|]; cbn.
  - intros [= <-]. split; [apply Hstored; reflexivity | reflexivity].
  - intros Hget. apply queryset_get_sound in Hget. tauto.
Qed.

(** An accepted update that writes a quantity keeps the store well-formed
    and the invariant true. *)
Lemma size_update_preserves (dflt : SizeDefaults) (db db' : DB) (i s : Size)
    (attrs : SizeAttrs) :
  store_wf db -> inventory_ok db = true ->
  In i (sizes db) ->
  writes_quantity (products db) (SizeUpdate (size_id i) attrs) ->
  SizeSerializer.save dflt db (Some i) attrs = ret (s, db') ->
  store_wf db' /\ inventory_ok db' = true /\ products db' = products db.
Proof.
  intros (Hpk & Hsk & Hpos) Hinv Hi [(q & Hq & Hq0) Hstored] Hsave.
  cbn [request_attrs] in Hq, Hstored.
  unfold SizeSerializer.save in Hsave.
  apply bind_inr_inv in Hsave as (checked & Hchk & Hsave).
  apply validate_fields_accepts_inv in Hchk as [-> _].
  apply bind_inr_inv in Hsave as (validated & Hval & Hupd).
  apply validate_accepts_inv in Hval as [-> Hcheck].
  unfold SizeSerializer.update in Hupd. injection Hupd as <- <-.
  set (s' := SizeSerializer.set_attrs i attrs).
  assert (Hid : size_id s' = size_id i) by reflexivity.
  assert (Hqty : size_quantity s' = q)
    by (unfold s', SizeSerializer.set_attrs; cbn; rewrite Hq; reflexivity).
  assert (Hkey : In (size_id s') (map size_id (sizes db)))
    by (rewrite Hid; apply in_map; exact Hi).
  split; [|split; [|reflexivity]].
  - split; [exact Hpk|]. cbn [sizes set_sizes]. split.
    + rewrite save_row_keys. exact Hsk.
    + apply List.Forall_forall. intros r Hr.
      apply save_row_inv in Hr as [-> | [Hr _]]; [lia|].
      rewrite List.Forall_forall in Hpos. apply Hpos; exact Hr.
  - apply inventory_ok_spec. intros p Hp. cbn [products set_sizes] in Hp.
    unfold SizeSerializer.variant_sizes. cbn [sizes set_sizes].
    rewrite (sum_filter_save_row size_id) by assumption.
    rewrite Hqty, Hid.
    pose proof (proj1 (inventory_ok_spec db) Hinv p Hp) as Hold.
    pose proof (sum_filter_narrow size_quantity
                  (fun x => variant x =? product_id p)
                  (fun x => negb (size_id x =? size_id i)) (sizes db) Hpos)
      as Hnarrow.
    cbv beta in Hnarrow.
    unfold SizeSerializer.variant_sizes in Hold.
    destruct (Z.eqb_spec (variant s') (product_id p)) as [Htarget|_]; [|lia].
    destruct (Z.eq_dec q 0) as [-> | Hne]; [lia|].
    destruct (Hcheck q Hq Hne) as (v & Hv & Hle).
    apply variant_or_instance_sound in Hv as [Hvin Hvid]; [|exact Hstored].
    assert (v = p).
    { apply (NoDup_map_pk_inj product_id (products db)); try assumption.
      fold s' in Hvid. congruence. }
    subst v. unfold queryset_exclude, SizeSerializer.variant_sizes in Hle.
    rewrite filter_filter_andb in Hle. cbv beta in Hle. lia.
Qed.

(** An accepted create that writes a quantity keeps the store well-formed
    and the invariant true. *)
Lemma size_create_preserves (dflt : SizeDefaults) (db db' : DB) (s : Size)
    (attrs : SizeAttrs) :
  store_wf db -> inventory_ok db = true ->
  writes_quantity (products db) (SizeCreate attrs) ->
  SizeSerializer.save dflt db None attrs = ret (s, db') ->
  store_wf db' /\ inventory_ok db' = true /\ products db' = products db.
Proof.
  intros (Hpk & Hsk & Hpos) Hinv [(q & Hq & Hq0) Hstored] Hsave.
  cbn [request_attrs] in Hq, Hstored.
  unfold SizeSerializer.save in Hsave.
  apply bind_inr_inv in Hsave as (checked & Hchk & Hsave).
  apply validate_fields_accepts_inv in Hchk as [-> _].
  apply bind_inr_inv in Hsave as (validated & Hval & Hcre).
  apply validate_accepts_inv in Hval as [-> Hcheck].
  unfold SizeSerializer.create in Hcre. rewrite Hq in Hcre.
  destruct (attr_variant attrs) as [v|] eqn:Hv; [|discriminate Hcre].
  cbn [from_option] in Hcre.
  destruct (from_option Some (default_size dflt) (attr_size attrs))
    as [label|]; [|discriminate Hcre].
  destruct (from_option Some (default_is_available dflt)
              (attr_is_available attrs)) as [avail|]; [|discriminate Hcre].
  injection Hcre as <- <-.
  set (s' := mkSize (next_pk size_id (sizes db)) (product_id v) label q avail).
  split; [|split; [|reflexivity]].
  - split; [exact Hpk|]. cbn [sizes set_sizes]. split.
    + rewrite map_app. cbn [map].
      apply List.NoDup_app; [exact Hsk | |].
      * apply (NoDup_cons_iff (size_id s') []).
        split; [cbn; tauto | constructor].
      * intros k Hk [<- | []]. apply (next_pk_fresh size_id (sizes db)).
        exact Hk.
    + apply List.Forall_app. split; [exact Hpos|].
      constructor; [exact Hq0 | constructor].
  - apply inventory_ok_spec. intros p Hp. cbn [products set_sizes] in Hp.
    unfold SizeSerializer.variant_sizes. cbn [sizes set_sizes].
    rewrite sum_filter_app.
    pose proof (proj1 (inventory_ok_spec db) Hinv p Hp) as Hold.
    unfold SizeSerializer.variant_sizes in Hold.
    subst s'. cbn [List.filter variant].
    destruct (Z.eqb_spec (product_id v) (product_id p)) as [Htarget|_];
      cbn [map sum fold_right size_quantity]; [|lia].
    destruct (Z.eq_dec q 0) as [-> | Hne]; [lia|].
    destruct (Hcheck q Hq Hne) as (w & Hw & Hle).
    unfold SizeSerializer.variant_or_instance in Hw. rewrite Hv in Hw.
    injection Hw as <-.
    assert (v = p).
    { apply (NoDup_map_pk_inj product_id (products db)); try assumption.
      apply Hstored; reflexivity. }
    subst v. unfold SizeSerializer.variant_sizes in Hle. lia.
Qed.

(** The part of the inventory invariant that holds: a size write that
    carries a quantity keeps a well-formed store within the invariant,
    whether it is accepted or rejected. *)
Lemma size_step_preserves (dflt : SizeDefaults) (db : DB) (rq : SizeRequest) :
  store_wf db -> inventory_ok db = true ->
  writes_quantity (products db) rq ->
  store_wf (size_step dflt db rq)
  /\ inventory_ok (size_step dflt db rq) = true
  /\ products (size_step dflt db rq) = products db.
Proof.
  intros Hwf Hinv Hrq. unfold size_step.
  destruct (size_write dflt db rq) as [e|[s db']] eqn:Hw; [tauto|].
  destruct rq as [attrs|k attrs]; cbn [size_write] in Hw.
  - eapply size_create_preserves; eassumption.
  - apply bind_inr_inv in Hw as (i & Hget & Hsave).
    apply get_object_or_404_sound in Hget as [Hi <-].
    eapply size_update_preserves; eassumption.
Qed.

Lemma size_run_preserves (dflt : SizeDefaults) (rqs : list SizeRequest) :
  forall db : DB,
    store_wf db -> inventory_ok db = true ->
    Forall (writes_quantity (products db)) rqs ->
    inventory_ok (size_run dflt db rqs) = true.
Proof.
  unfold size_run. induction rqs as [|rq rqs IH]; intros db Hwf Hinv Hall;
    [exact Hinv|].
  apply List.Forall_cons_iff in Hall as [Hrq Hall]. cbn [fold_left].
  destruct (size_step_preserves dflt db rq Hwf Hinv Hrq)
    as (Hwf' & Hinv' & Hprod).
  apply IH; [exact Hwf' | exact Hinv' | rewrite Hprod; exact Hall].
Qed.

(** A write whose nonzero quantity exceeds what the variant has left is
    rejected by [validate] with the inventory message; a write that
    carries a size label does not get as far, and either way nothing is
    stored. *)
Lemma size_write_rejects_excess (dflt : SizeDefaults) (db : DB)
    (instance : option Size) (attrs : SizeAttrs) (q : Z) (v : Product) :
  attr_quantity attrs = Some q -> q <> 0 ->
  SizeSerializer.variant_or_instance db instance attrs = ret v ->
  sum (map size_quantity
         (match instance with
          | Some i => queryset_exclude size_id
                        (SizeSerializer.variant_sizes db v) (size_id i)
          | None => SizeSerializer.variant_sizes db v
          end)) + q > product_quantity v ->
  SizeSerializer.validate db instance attrs
  = raise (ValidationError SizeSerializer.inventory_message)
  /\ is_ok (SizeSerializer.save dflt db instance attrs) = false.
Proof.
  intros Hq Hne Hv Hgt.
  assert (Hval : SizeSerializer.validate db instance attrs
                 = raise (ValidationError SizeSerializer.inventory_message)).
  { unfold SizeSerializer.validate.
    rewrite Hq, Hv. destruct (Z.eqb_spec q 0) as [|_]; [contradiction|].
    cbn [bind ret].
    match goal with |- context [?a >? ?b] => destruct (Z.gtb_spec a b) end;
      [reflexivity | lia]. }
  split; [exact Hval|]. unfold SizeSerializer.save.
  destruct (SizeSerializer.validate_fields dflt db instance attrs)
    as [e|checked] eqn:Hchk; [reflexivity|].
  apply validate_fields_accepts_inv in Hchk as [-> _].
  cbn [bind ret]. rewrite Hval. reflexivity.
Qed.

(* --------------------------------------------------------------------- *)
(** ** Further properties of the representation layer                     *)
(* --------------------------------------------------------------------- *)

(** X1. The two set differences of [get_field_names] amount to one filter:
    with an allow-list the result is the default names, in their order and
    with their multiplicity, filtered by membership in the allow-list. *)
Theorem get_field_names_is_filter :
  forall (field_names fields : list string),
    DynamicModelSerializer.get_field_names field_names (Some fields)
    = List.filter (fun x => bool_decide (x ∈ fields)) field_names
    /\ sublist
         (DynamicModelSerializer.get_field_names field_names (Some fields))
         field_names.
Proof.
  intros field_names fields. split; [|apply get_field_names_sublist].
  unfold DynamicModelSerializer.get_field_names.
  apply filter_ext_in. intros x Hx. apply bool_decide_ext.
  rewrite not_elem_of_difference, !elem_of_list_to_set, list_elem_of_In.
  tauto.
Qed.

Lemma get_field_names_filter (field_names fields : list string) :
  DynamicModelSerializer.get_field_names field_names (Some fields)
  = List.filter (fun x => bool_decide (x ∈ fields)) field_names.
Proof.
  unfold DynamicModelSerializer.get_field_names.
  apply filter_ext_in. intros x Hx. apply bool_decide_ext.
  rewrite not_elem_of_difference, !elem_of_list_to_set, list_elem_of_In.
  tauto.
Qed.

(** X2. Narrowing composes: narrowing by the same allow-list twice is
    narrowing once, two allow-lists can be applied in either order, and
    applying one after the other is narrowing by the names both hold. *)
Theorem get_field_names_compose :
  forall (field_names f g : list string),
    let narrow := DynamicModelSerializer.get_field_names in
    narrow (narrow field_names (Some f)) (Some f) = narrow field_names (Some f)
    /\ narrow (narrow field_names (Some f)) (Some g)
       = narrow (narrow field_names (Some g)) (Some f)
    /\ narrow (narrow field_names (Some f)) (Some g)
       = narrow field_names (Some (narrow f (Some g))).
Proof.
  intros field_names f g narrow. subst narrow.
  rewrite !get_field_names_filter, !filter_filter_andb.
  repeat split; apply filter_ext; intros x.
  - rewrite andb_diag. reflexivity.
  - apply andb_comm.
  - apply eq_true_iff_eq.
    rewrite andb_true_iff, !bool_decide_eq_true, !list_elem_of_In.
    rewrite filter_In, bool_decide_eq_true, list_elem_of_In. tauto.
Qed.

(** Rendering succeeds when the instance has every attribute asked for, and
    the keys of the result are the field names. *)
Lemma serializer_data_total {R : Type} (getattr : R -> string -> result value)
    (field_names : list string) (instance : R) :
  (forall f, In f field_names -> exists v, getattr instance f = ret v) ->
  exists d, serializer_data getattr field_names instance = ret d
            /\ dict_keys d = field_names.
Proof.
  induction field_names as [|f fs IH]; intros Hattr; cbn [serializer_data].
  - exists []. split; reflexivity.
  - destruct (Hattr f) as [v Hv]; [left; reflexivity|].
    destruct IH as (d & Hd & Hkeys); [intros; apply Hattr; right; assumption|].
    rewrite Hv, Hd. exists ((f, v) :: d).
    split; [reflexivity|]. unfold dict_keys in *. cbn [map fst].
    rewrite Hkeys. reflexivity.
Qed.

Lemma ProductSerializer_default_names :
  ProductSerializer.get_field_names None
  = ["id"; "name"; "brand"; "price"; "is_available"; "vendor"].
Proof. vm_compute. reflexivity. Qed.

(** X3. Whatever allow-list a Product serializer is built with, none at
    all included, rendering a Product succeeds with a dictionary whose keys
    are default field names, and [description], [quantity] and [customers],
    which [Meta.exclude] names, are never among them: an allow-list cannot
    bring an excluded field back. *)
Theorem ProductSerializer_never_exposes_excluded :
  forall (dynamic_fields : option (list string)) (p : Product),
    exists d,
      ProductSerializer.data dynamic_fields p = ret (VDict d)
      /\ dict_keys d = ProductSerializer.get_field_names dynamic_fields
      /\ (forall k, In k (dict_keys d) ->
            In k (ProductSerializer.get_field_names None)
            /\ k <> "description" /\ k <> "quantity" /\ k <> "customers").
Proof.
  intros dynamic_fields p.
  assert (Hsub : forall k,
            In k (ProductSerializer.get_field_names dynamic_fields) ->
            In k (ProductSerializer.get_field_names None)).
  { intros k. unfold ProductSerializer.get_field_names.
    destruct dynamic_fields as [fields|]; [|tauto].
    rewrite get_field_names_allowed. tauto. }
  destruct (serializer_data_total ProductSerializer.getattr
              (ProductSerializer.get_field_names dynamic_fields) p)
    as (d & Hd & Hkeys).
  { intros f Hf. apply Hsub in Hf. rewrite ProductSerializer_default_names in Hf.
    cbn in Hf.
    repeat (destruct Hf as [<- | Hf]; [eexists; reflexivity|]).
    destruct Hf. }
  exists d. unfold ProductSerializer.data. rewrite Hd.
  split; [reflexivity|]. split; [exact Hkeys|].
  intros k Hk. rewrite Hkeys in Hk. apply Hsub in Hk. split; [exact Hk|].
  rewrite ProductSerializer_default_names in Hk. cbn in Hk.
  repeat (destruct Hk as [<- | Hk]; [repeat split; discriminate|]).
  destruct Hk.
Qed.

(** X4. The [cart] field of an Order cannot be rendered: [CartSerializer]
    defines no [get_custom_fields] and inherits none, so for every cart the
    field's [to_representation] ends in an [AttributeError] before any
    serializer is built. Built with [ProductSerializer], the same method is
    the rendering of an order item's product. *)
Theorem OrderSerializer_cart_to_representation_raises :
  forall (Cart : Type)
         (data_of : serializer_class -> option (list string) -> Cart ->
                    result value)
         (cart : Cart) (p : Product),
    OrderSerializer.cart_to_representation data_of cart
    = raise (AttributeError
               "type object 'CartSerializer' has no attribute 'get_custom_fields'")
    /\ to_representation_of_class (Some ProductSerializer_class)
         (fun _ => ProductSerializer.data) p
       = OrderItemSerializer.product_to_representation p.
Proof. intros Cart data_of cart p. split; reflexivity. Qed.

(** X5. Writing and reading the [product] field round-trip on the
    identifier: when the field resolves an identifier to a Product, that
    Product is a stored one and its rendering carries the identifier under
    the key [id]. *)
Theorem OrderItem_product_round_trip :
  forall (db : DB) (k : Z) (p : Product),
    OrderItemSerializer.product_to_internal_value db k = ret p ->
    In p (products db)
    /\ exists d,
         OrderItemSerializer.product_to_representation p = ret (VDict d)
         /\ In ("id", VInt k) d.
Proof.
  intros db k p Hget.
  unfold OrderItemSerializer.product_to_internal_value,
    CustomRelatedField.to_internal_value in Hget.
  apply queryset_get_sound in Hget as [Hin <-]. split; [exact Hin|].
  eexists. unfold OrderItemSerializer.product_to_representation,
    CustomRelatedField.to_representation.
  split; [apply ProductSerializer_custom_data|]. left; reflexivity.
Qed.

Lemma OrderItem_product_round_trip_witness :
  In scarf (products shop_db)
  /\ exists d,
       OrderItemSerializer.product_to_representation scarf = ret (VDict d)
       /\ In ("id", VInt 2) d.
Proof.
  apply (OrderItem_product_round_trip shop_db 2 scarf). reflexivity.
Defined.

(* --------------------------------------------------------------------- *)
(** ** Further properties of the user controller                          *)
(* --------------------------------------------------------------------- *)

(** The outcome of creating a user from a body whose password and email
    pass the validation of their fields. *)
Lemma UserViewSet_create_eq (make_password : string -> string)
    (dflt : UserDefaults) (legacy_defaults : bool)
    (clean : DB -> string -> value -> string + value)
    (data : gmap string value) (db : DB) (raw_password raw_email : value)
    (plaintext e : string) :
  data !! "password" = Some raw_password ->
  clean db "password" raw_password = inr (VStr plaintext) ->
  data !! "email" = Some raw_email ->
  clean db "email" raw_email = inr (VStr e) ->
  UserViewSet.create make_password dflt legacy_defaults clean data db
  = let u := mkUser (next_pk user_id (users db)) e (make_password plaintext)
               (default_is_active dflt) (default_is_staff dflt)
               (if legacy_defaults then false else default_is_vendor dflt) in
    ret (u, set_users (users db ++ [u]) db).
Proof.
  intros Hp Hcp He Hce. unfold UserViewSet.create.
  rewrite (UserSerializer_to_internal_value_ok _ _ _ raw_password raw_email
             plaintext e) by assumption.
  cbn [bind ret]. unfold UserViewSet.perform_create.
  replace (validated_user legacy_defaults plaintext e !! "password")
    with (Some (VStr plaintext))
    by (unfold validated_user; destruct legacy_defaults;
        simplify_map_eq; reflexivity).
  cbn [bind ret]. apply UserSerializer_save_validated.
Qed.

(** An insert keeps the keys of a table distinct. *)
Lemma NoDup_insert_next_pk {R : Type} (pk : R -> Z) (rows : list R) (r : R) :
  List.NoDup (map pk rows) -> pk r = next_pk pk rows ->
  List.NoDup (map pk (rows ++ [r])).
Proof.
  intros Hnd Hk. rewrite map_app. cbn [map].
  apply List.NoDup_app; [exact Hnd | |].
  - apply (NoDup_cons_iff (pk r) []). split; [cbn; tauto | constructor].
  - intros k Hin [<- | []]. rewrite Hk in Hin.
    apply (next_pk_fresh pk rows). exact Hin.
Qed.

(** A staff caller passes the object check of an action guarded by
    [OR(IsUser, IsAdminUser)]. *)
Lemma staff_passes_object_check {R : Type}
    (chp : permission -> Caller -> bool)
    (chop : permission -> Caller -> R -> bool) (admin : User) (obj : R) :
  is_staff admin = true ->
  check_object_permissions chp chop [OR IsUser IsAdminUser] (Some admin) obj
  = ret tt.
Proof.
  intros Hstaff. unfold check_object_permissions.
  cbn [forallb has_object_permission has_permission caller_is_staff].
  rewrite Hstaff, orb_true_r. reflexivity.
Qed.

(** X6. Creating a user and retrieving it round-trip: in a store with
    distinct keys and a model whose users start active, when the password
    and the email of the body pass the validation of their fields, a staff
    caller who retrieves the key of the user just created is answered 200
    with that user's representation. It carries the email as validated and
    the default flags, and has no [password] key: the hash is
    write-only. *)
Theorem UserViewSet_create_then_retrieve :
  forall (chp : permission -> Caller -> bool)
         (chop : permission -> Caller -> User -> bool)
         (make_password : string -> string) (dflt : UserDefaults)
         (legacy_defaults : bool)
         (clean : DB -> string -> value -> string + value)
         (data : gmap string value) (db : DB)
         (raw_password raw_email : value) (plaintext e : string)
         (admin : User),
    List.NoDup (map user_id (users db)) ->
    default_is_active dflt = true ->
    data !! "password" = Some raw_password ->
    clean db "password" raw_password = inr (VStr plaintext) ->
    data !! "email" = Some raw_email ->
    clean db "email" raw_email = inr (VStr e) ->
    is_staff admin = true ->
    exists u db',
      UserViewSet.create make_password dflt legacy_defaults clean data db
      = ret (u, db')
      /\ UserViewSet.dispatch chp ARetrieve (Some admin)
           (UserViewSet.retrieve chp chop (Some admin) (user_id u)) db'
         = (ret (mkResponse 200
                   (VDict [("id", VInt (user_id u)); ("auth_token", VNull);
                           ("email", VStr e);
                           ("is_staff", VBool (default_is_staff dflt));
                           ("is_active", VBool true);
                           ("is_vendor", VBool (is_vendor u))])), db').
Proof.
  intros chp chop make_password dflt legacy_defaults clean data db
    raw_password raw_email plaintext e admin Hnd Hactive Hp Hcp He Hce Hstaff.
  eexists _, _. split; [eapply UserViewSet_create_eq; eassumption|].
  cbv zeta.
  set (u := mkUser _ _ _ _ _ _).
  unfold UserViewSet.dispatch, dispatch.
  rewrite UserViewSet_gate_admits_staff by auto.
  unfold UserViewSet.retrieve, retrieve, get_object. cbn [bind ret].
  rewrite (get_object_or_404_present user_id "User" _ u).
  - cbn [bind ret UserViewSet.get_permissions].
    rewrite staff_passes_object_check by exact Hstaff.
    cbn [bind ret]. rewrite UserSerializer_data_total.
    unfold user_representation, u. cbn. rewrite Hactive. reflexivity.
  - unfold UserViewSet.queryset. apply NoDup_map_filter.
    cbn [users set_users]. apply NoDup_insert_next_pk; [exact Hnd|reflexivity].
  - unfold UserViewSet.queryset. apply filter_In. cbn [users set_users].
    split; [apply in_or_app; right; left; reflexivity | exact Hactive].
Qed.

Lemma UserViewSet_create_then_retrieve_witness :
  exists u db',
    UserViewSet.create tagged_hash (mkUserDefaults true false false) false
      nonblank_string signup_data accounts_db
    = ret (u, db')
    /\ UserViewSet.dispatch self_has_permission ARetrieve (Some root)
         (UserViewSet.retrieve self_has_permission
            self_has_object_permission (Some root) (user_id u)) db'
       = (ret (mkResponse 200
                 (VDict [("id", VInt (user_id u)); ("auth_token", VNull);
                         ("email", VStr "eve@shop.test");
                         ("is_staff", VBool false);
                         ("is_active", VBool true);
                         ("is_vendor", VBool (is_vendor u))])), db').
Proof.
  apply (UserViewSet_create_then_retrieve self_has_permission
           self_has_object_permission tagged_hash
           (mkUserDefaults true false false) false nonblank_string
           signup_data accounts_db (VStr "hunter2") (VStr "eve@shop.test")
           "hunter2" "eve@shop.test" root accounts_db_user_keys);
    reflexivity.
Defined.

(** X7. A create request without an email, or without a password, is
    rejected with a ValidationError, whatever else the body holds: no user
    is stored. *)
Theorem UserViewSet_create_requires_email_and_password :
  forall (make_password : string -> string) (dflt : UserDefaults)
         (legacy_defaults : bool)
         (clean : DB -> string -> value -> string + value)
         (data : gmap string value) (db : DB),
    data !! "email" = None \/ data !! "password" = None ->
    exists msg,
      UserViewSet.create make_password dflt legacy_defaults clean data db
      = raise (ValidationError msg).
Proof.
  intros make_password dflt legacy_defaults clean data db Hmissing.
  unfold UserViewSet.create, UserSerializer.to_internal_value.
  rewrite UserSerializer_writable. cbn [UserSerializer.run_fields].
  replace (UserSerializer.required "email") with true
    by (vm_compute; reflexivity).
  replace (UserSerializer.required "password") with true
    by (vm_compute; reflexivity).
  destruct (data !! "email") as [v|] eqn:He.
  - destruct Hmissing as [Hm | Hm]; [discriminate Hm|]. rewrite Hm.
    destruct (clean db "email" v); cbn; eexists; reflexivity.
  - cbn. eexists; reflexivity.
Qed.

Lemma UserViewSet_create_requires_email_and_password_witness :
  exists msg,
    UserViewSet.create tagged_hash (mkUserDefaults true false false) false
      nonblank_string {[ "password" := VStr "hunter2" ]} accounts_db
    = raise (ValidationError msg).
Proof.
  apply (UserViewSet_create_requires_email_and_password tagged_hash
           (mkUserDefaults true false false) false nonblank_string
           {[ "password" := VStr "hunter2" ]} accounts_db).
  left. reflexivity.
Defined.

(** The outcome of [destroy] for an active stored user and a caller that
    [IsUser] admits at both levels. *)
Lemma UserViewSet_destroy_eq (chp : permission -> Caller -> bool)
    (chop : permission -> Caller -> User -> bool) (c : Caller) (db : DB)
    (u : User) :
  List.NoDup (map user_id (users db)) -> In u (users db) ->
  is_active u = true -> chp IsUser c = true -> chop IsUser c u = true ->
  UserViewSet.dispatch chp ADestroy c
    (UserViewSet.destroy chp chop c (user_id u)) db
  = (ret (mkResponse 204 VNull),
     set_users (save_row user_id (deactivated u) (users db)) db).
Proof.
  intros Hnd Hin Hact Hgate Hobj.
  unfold UserViewSet.dispatch, dispatch, UserViewSet.destroy,
    UserViewSet.get_object, get_object.
  unfold check_permissions, check_object_permissions, UserViewSet.queryset.
  cbn [UserViewSet.get_permissions forallb has_permission].
  rewrite Hgate. cbn [andb bind ret].
  rewrite get_object_or_404_present;
    [| apply NoDup_map_filter; exact Hnd
     | apply filter_In; split; assumption].
  cbn [bind ret forallb has_object_permission]. rewrite Hobj. reflexivity.
Qed.

(** A save leaves the rows under other keys where they are. *)
Lemma save_row_other {R : Type} (pk : R -> Z) (r r' : R) (rows : list R) :
  In r' rows -> pk r' <> pk r -> In r' (save_row pk r rows).
Proof.
  intros Hin Hne. unfold save_row. apply in_map_iff. exists r'.
  split; [|exact Hin].
  destruct (Z.eqb_spec (pk r') (pk r)); [contradiction | reflexivity].
Qed.

(** X8. Destroying a key under which no active user is stored, be it
    unknown or already deactivated, is answered with 404 Not Found and
    leaves the store as it was, for every caller that passes the gate. *)
Theorem UserViewSet_destroy_not_found :
  forall (chp : permission -> Caller -> bool)
         (chop : permission -> Caller -> User -> bool)
         (c : Caller) (db : DB) (k : Z),
    chp IsUser c = true ->
    (forall r, In r (users db) -> is_active r = true -> user_id r <> k) ->
    UserViewSet.dispatch chp ADestroy c (UserViewSet.destroy chp chop c k) db
    = (ret (mkResponse 404 (detail "Not found.")), db).
Proof.
  intros chp chop c db k Hgate Habsent.
  unfold UserViewSet.dispatch, dispatch, UserViewSet.destroy,
    UserViewSet.get_object, get_object, check_permissions.
  cbn [UserViewSet.get_permissions forallb has_permission].
  rewrite Hgate. cbn [andb bind ret].
  rewrite get_object_or_404_absent; [reflexivity|].
  intros r Hr. unfold UserViewSet.queryset in Hr.
  apply filter_In in Hr as [Hr Hact]. apply Habsent; assumption.
Qed.

Lemma UserViewSet_destroy_not_found_witness :
  UserViewSet.dispatch self_has_permission ADestroy (Some alice)
    (UserViewSet.destroy self_has_permission self_has_object_permission
       (Some alice) 7) accounts_db
  = (ret (mkResponse 404 (detail "Not found.")), accounts_db).
Proof.
  apply (UserViewSet_destroy_not_found self_has_permission
           self_has_object_permission (Some alice) accounts_db 7).
  - reflexivity.
  - intros r [<- | [<- | []]] _; discriminate.
Defined.

(** X9. Deleting twice: once [destroy] has deactivated a user, the same
    request again is answered with 404 Not Found and changes nothing. *)
Theorem UserViewSet_destroy_twice :
  forall (chp : permission -> Caller -> bool)
         (chop : permission -> Caller -> User -> bool)
         (c : Caller) (db : DB) (u : User),
    List.NoDup (map user_id (users db)) ->
    In u (users db) ->
    is_active u = true ->
    chp IsUser c = true ->
    chop IsUser c u = true ->
    let request :=
      UserViewSet.dispatch chp ADestroy c
        (UserViewSet.destroy chp chop c (user_id u)) in
    fst (request db) = ret (mkResponse 204 VNull)
    /\ request (snd (request db))
       = (ret (mkResponse 404 (detail "Not found.")), snd (request db)).
Proof.
  intros chp chop c db u Hnd Hin Hact Hgate Hobj request. subst request.
  rewrite UserViewSet_destroy_eq by assumption. cbn [fst snd].
  split; [reflexivity|].
  unfold UserViewSet.dispatch, dispatch, UserViewSet.destroy,
    UserViewSet.get_object, get_object, check_permissions.
  cbn [UserViewSet.get_permissions forallb has_permission].
  rewrite Hgate. cbn [andb bind ret].
  rewrite get_object_or_404_absent; [reflexivity|].
  intros r. apply queryset_after_deactivation.
Qed.

Lemma UserViewSet_destroy_twice_witness :
  fst (UserViewSet.dispatch self_has_permission ADestroy (Some alice)
         (UserViewSet.destroy self_has_permission
            self_has_object_permission (Some alice) 1) accounts_db)
  = ret (mkResponse 204 VNull)
  /\ UserViewSet.dispatch self_has_permission ADestroy (Some alice)
       (UserViewSet.destroy self_has_permission self_has_object_permission
          (Some alice) 1)
       (snd (UserViewSet.dispatch self_has_permission ADestroy (Some alice)
               (UserViewSet.destroy self_has_permission
                  self_has_object_permission (Some alice) 1) accounts_db))
     = (ret (mkResponse 404 (detail "Not found.")),
        snd (UserViewSet.dispatch self_has_permission ADestroy (Some alice)
               (UserViewSet.destroy self_has_permission
                  self_has_object_permission (Some alice) 1) accounts_db)).
Proof.
  refine (UserViewSet_destroy_twice self_has_permission
            self_has_object_permission (Some alice) accounts_db alice
            accounts_db_user_keys _ _ _ _).
  - cbn. tauto.
  - reflexivity.
  - reflexivity.
  - reflexivity.
Defined.

(** X10. What [destroy] leaves alone: the products, sizes, vendors, orders
    and the size vocabulary are untouched, every other user's row stays as
    it is, and the deactivated row keeps its key, email, password hash,
    staff flag and vendor flag. *)
Theorem UserViewSet_destroy_frame :
  forall (chp : permission -> Caller -> bool)
         (chop : permission -> Caller -> User -> bool)
         (c : Caller) (db : DB) (u : User),
    List.NoDup (map user_id (users db)) ->
    In u (users db) ->
    is_active u = true ->
    chp IsUser c = true ->
    chop IsUser c u = true ->
    let db' :=
      snd (UserViewSet.dispatch chp ADestroy c
             (UserViewSet.destroy chp chop c (user_id u)) db) in
    products db' = products db /\ sizes db' = sizes db
    /\ vendors db' = vendors db /\ orders db' = orders db
    /\ size_chart db' = size_chart db
    /\ length (users db') = length (users db)
    /\ (forall r, In r (users db) -> user_id r <> user_id u ->
                  In r (users db'))
    /\ (forall r, In r (users db') -> user_id r = user_id u ->
          email r = email u /\ password r = password u
          /\ is_staff r = is_staff u /\ is_vendor r = is_vendor u
          /\ is_active r = false).
Proof.
  intros chp chop c db u Hnd Hin Hact Hgate Hobj db'. subst db'.
  rewrite UserViewSet_destroy_eq by assumption. cbn [snd].
  cbn [products sizes vendors orders size_chart users set_users].
  repeat (split; [reflexivity|]).
  split; [unfold save_row; apply length_map|].
  split.
  - intros r Hr Hne. apply save_row_other; assumption.
  - intros r Hr Hk. apply save_row_inv in Hr as [-> | [_ Hne]].
    + repeat split; reflexivity.
    + contradiction.
Qed.

Lemma UserViewSet_destroy_frame_witness :
  In root
    (users (snd (UserViewSet.dispatch self_has_permission ADestroy (Some alice)
                   (UserViewSet.destroy self_has_permission
                      self_has_object_permission (Some alice) 1)
                   accounts_db))).
Proof.
  refine (proj1 (proj2 (proj2 (proj2 (proj2 (proj2 (proj2
            (UserViewSet_destroy_frame self_has_permission
               self_has_object_permission (Some alice) accounts_db alice
               accounts_db_user_keys _ _ _ _))))))) root _ _).
  - cbn. tauto.
  - reflexivity.
  - reflexivity.
  - reflexivity.
  - cbn. tauto.
  - discriminate.
Defined.

(** X11. A caller that [IsUser] rejects, at the gate or on the object,
    cannot deactivate a user: the request is answered 401 for an anonymous
    caller and 403 for any other, and the store is unchanged. *)
Theorem UserViewSet_destroy_denied :
  forall (chp : permission -> Caller -> bool)
         (chop : permission -> Caller -> User -> bool)
         (c : Caller) (db : DB) (u : User),
    List.NoDup (map user_id (users db)) ->
    In u (users db) ->
    is_active u = true ->
    chp IsUser c = false \/ chop IsUser c u = false ->
    UserViewSet.dispatch chp ADestroy c
      (UserViewSet.destroy chp chop c (user_id u)) db
    = (match c with
       | None =>
           ret (mkResponse 401
                  (detail "Authentication credentials were not provided."))
       | Some _ =>
           ret (mkResponse 403
                  (detail "You do not have permission to perform this action."))
       end, db).
Proof.
  intros chp chop c db u Hnd Hin Hact Hdenied.
  unfold UserViewSet.dispatch, dispatch, UserViewSet.destroy,
    UserViewSet.get_object, get_object.
  unfold check_permissions, check_object_permissions, UserViewSet.queryset.
  cbn [UserViewSet.get_permissions forallb has_permission].
  destruct (chp IsUser c) eqn:Hgate; cbn [andb bind ret].
  - destruct Hdenied as [Hd | Hd]; [discriminate Hd|].
    rewrite get_object_or_404_present;
      [| apply NoDup_map_filter; exact Hnd
       | apply filter_In; split; assumption].
    cbn [bind ret forallb has_object_permission]. rewrite Hd.
    destruct c; reflexivity.
  - destruct c; reflexivity.
Qed.

Lemma UserViewSet_destroy_denied_witness :
  UserViewSet.dispatch self_has_permission ADestroy (Some root)
    (UserViewSet.destroy self_has_permission self_has_object_permission
       (Some root) 1) accounts_db
  = (ret (mkResponse 403
            (detail "You do not have permission to perform this action.")),
     accounts_db).
Proof.
  refine (UserViewSet_destroy_denied self_has_permission
            self_has_object_permission (Some root) accounts_db alice
            accounts_db_user_keys _ _ _).
  - cbn. tauto.
  - reflexivity.
  - right. reflexivity.
Defined.

(* --------------------------------------------------------------------- *)
(** ** The permission tables of the controllers                           *)
(* --------------------------------------------------------------------- *)

(** X12. Listing and retrieving Products, Sizes, Images, Categories, Vendors
    and Reviews is open to every caller, the anonymous one included,
    whatever the classes of [api/permissions.py] decide. *)
Theorem public_reads_pass_the_gate :
  forall (chp : permission -> Caller -> bool) (c : Caller) (vs : viewset)
         (act : action),
    In vs [VProduct; VSize; VImage; VCategory; VVendor; VReview] ->
    is_read act = true ->
    check_permissions chp (viewset_get_permissions vs act) c = ret tt.
Proof.
  intros chp c vs act Hvs Hread.
  destruct act; try discriminate Hread;
    cbn in Hvs; intuition (subst; reflexivity).
Qed.

Lemma public_reads_pass_the_gate_witness :
  check_permissions (fun _ _ => false)
    (viewset_get_permissions VCategory AList) None = ret tt.
Proof.
  apply (public_reads_pass_the_gate (fun _ _ => false) None VCategory AList).
  - cbn. tauto.
  - reflexivity.
Defined.

(** X13. Where a controller asks for a built-in class only, the gate is
    decided by the caller alone. Every write on Categories and the User
    listing pass for staff and for nobody else; creating a Vendor or an
    Order passes for every authenticated caller and asks an anonymous one
    to authenticate; creating a User passes for everybody. *)
Theorem builtin_gates :
  forall (chp : permission -> Caller -> bool) (c : Caller),
    (forall act, is_read act = false ->
       check_permissions chp (CategoryViewSet.get_permissions act) c
       = if caller_is_staff c then ret tt else permission_denied c)
    /\ check_permissions chp (UserViewSet.get_permissions AList) c
       = (if caller_is_staff c then ret tt else permission_denied c)
    /\ check_permissions chp (VendorViewSet.get_permissions ACreate) c
       = (if bool_decide (is_Some c) then ret tt else raise NotAuthenticated)
    /\ check_permissions chp (OrderViewSet.get_permissions ACreate) c
       = (if bool_decide (is_Some c) then ret tt else raise NotAuthenticated)
    /\ check_permissions chp (UserViewSet.get_permissions ACreate) c = ret tt.
Proof.
  intros chp c. unfold check_permissions. split; [|split; [|split; [|split]]].
  - intros act Hread. destruct act; try discriminate Hread;
      cbn; rewrite andb_true_r; reflexivity.
  - cbn. rewrite andb_true_r. reflexivity.
  - cbn. rewrite andb_true_r. destruct c; reflexivity.
  - cbn. rewrite andb_true_r. destruct c; reflexivity.
  - reflexivity.
Qed.

(** X14. A staff caller passes the gate of every action on Categories,
    Vendors, OrderItems, Reviews and Orders, of retrieving and listing
    Users, and of destroying Products and Images, whatever the classes of
    [api/permissions.py] decide. *)
Theorem staff_passes_the_gate :
  forall (chp : permission -> Caller -> bool) (admin : User) (vs : viewset)
         (act : action),
    is_staff admin = true ->
    In vs [VCategory; VVendor; VOrderItem; VReview; VOrder]
    \/ (vs = VUser /\ is_read act = true)
    \/ ((vs = VProduct \/ vs = VImage) /\ act = ADestroy) ->
    check_permissions chp (viewset_get_permissions vs act) (Some admin)
    = ret tt.
Proof.
  intros chp admin vs act Hstaff Hcase. unfold check_permissions.
  destruct Hcase as [Hvs | [[-> Hread] | [[-> | ->] ->]]].
  - cbn in Hvs.
    destruct Hvs as [<- | [<- | [<- | [<- | [<- | []]]]]]; destruct act; cbn;
      rewrite ?Hstaff, ?orb_true_r; reflexivity.
  - destruct act; try discriminate Hread; cbn;
      rewrite ?Hstaff, ?orb_true_r; reflexivity.
  - cbn. rewrite Hstaff, orb_true_r. reflexivity.
  - cbn. rewrite Hstaff, orb_true_r. reflexivity.
Qed.

Lemma staff_passes_the_gate_witness :
  check_permissions (fun _ _ => false)
    (viewset_get_permissions VReview ACreate) (Some root) = ret tt.
Proof.
  apply (staff_passes_the_gate (fun _ _ => false) root VReview ACreate).
  - reflexivity.
  - left. cbn. tauto.
Defined.

(** X15. Staff has no override on inventory writes: every write on Sizes,
    and updating a Product or an Image, is gated by [IsVendor] alone, so a
    staff caller whom [IsVendor] rejects is answered with a denial. *)
Theorem staff_has_no_override_on_inventory :
  forall (chp : permission -> Caller -> bool) (admin : User) (act : action),
    is_staff admin = true ->
    chp IsVendor (Some admin) = false ->
    is_read act = false ->
    check_permissions chp (SizeViewSet.get_permissions act) (Some admin)
    = raise PermissionDenied
    /\ (act = AUpdate \/ act = APartialUpdate ->
        check_permissions chp (ProductViewSet.get_permissions act)
          (Some admin) = raise PermissionDenied
        /\ check_permissions chp (ImageViewSet.get_permissions act)
             (Some admin) = raise PermissionDenied).
Proof.
  intros chp admin act Hstaff Hvendor Hread. unfold check_permissions.
  split.
  - destruct act; try discriminate Hread; cbn; rewrite Hvendor; reflexivity.
  - intros [-> | ->]; cbn; rewrite Hvendor; split; reflexivity.
Qed.

Lemma staff_has_no_override_on_inventory_witness :
  check_permissions (fun _ _ => false) (SizeViewSet.get_permissions ACreate)
    (Some root) = raise PermissionDenied.
Proof.
  refine (proj1 (staff_has_no_override_on_inventory (fun _ _ => false) root
                   ACreate _ _ _)); reflexivity.
Defined.

(** X16. Through the permission gate, an update or partial update of an
    Order is answered with 405 exactly for the callers the gate admits,
    those who are staff or whom [IsUser] admits at request level. Any other
    caller never reaches the handler and gets the gate's answer, 401 when
    anonymous and 403 otherwise. Either way the store is unchanged. *)
Theorem OrderViewSet_update_through_the_gate :
  forall (chp : permission -> Caller -> bool) (c : Caller)
         (request : Request) (k : Z) (db : DB),
    let denied :=
      handle_exception
        (match c with None => NotAuthenticated | Some _ => PermissionDenied end)
    in
    OrderViewSet.dispatch chp AUpdate c (OrderViewSet.update request k) db
    = (if chp IsUser c || caller_is_staff c
       then ret (mkResponse 405 (detail (method_not_allowed "PUT")))
       else denied, db)
    /\ OrderViewSet.dispatch chp APartialUpdate c
         (OrderViewSet.partial_update request k) db
       = (if chp IsUser c || caller_is_staff c
          then ret (mkResponse 405 (detail (method_not_allowed "PATCH")))
          else denied, db).
Proof.
  intros chp c request k db denied. subst denied.
  unfold OrderViewSet.dispatch, dispatch, check_permissions.
  cbn [OrderViewSet.get_permissions forallb has_permission].
  rewrite andb_true_r.
  destruct (chp IsUser c || caller_is_staff c); [split; reflexivity|].
  destruct c; split; reflexivity.
Qed.

(* --------------------------------------------------------------------- *)
(** ** Further properties of size writes                                  *)
(* --------------------------------------------------------------------- *)

Lemma stock_db_wf : store_wf stock_db.
Proof.
  split; [|split].
  - apply (NoDup_cons_iff 1 [2]). split.
    + cbn. intros [H|[]]; discriminate H.
    + apply (NoDup_cons_iff 2 []). split; [cbn; tauto | constructor].
  - apply (NoDup_cons_iff 1 []). split; [cbn; tauto | constructor].
  - constructor; [cbn; lia | constructor].
Defined.

Lemma stock_requests_write_quantity :
  Forall (writes_quantity (products stock_db)) stock_requests.
Proof.
  unfold stock_requests.
  constructor; [|constructor; [|constructor; [|constructor]]];
    (split; [eexists; split; [reflexivity | lia] | cbn]).
  - intros w H; discriminate H.
  - intros w [= <-]. tauto.
  - intros w [= <-]. tauto.
Defined.

(** X17. Starting from a well-formed store that satisfies the inventory
    invariant, any sequence of Size create and update requests that each
    write a quantity, accepted or rejected, ends in a well-formed store
    that satisfies the invariant, with the products as they were. *)
Theorem size_writes_with_quantity_keep_inventory :
  forall (dflt : SizeDefaults) (rqs : list SizeRequest) (db : DB),
    store_wf db ->
    inventory_ok db = true ->
    Forall (writes_quantity (products db)) rqs ->
    store_wf (size_run dflt db rqs)
    /\ inventory_ok (size_run dflt db rqs) = true
    /\ products (size_run dflt db rqs) = products db.
Proof.
  intros dflt rqs. unfold size_run.
  induction rqs as [|rq rqs IH]; intros db Hwf Hinv Hall; [tauto|].
  apply List.Forall_cons_iff in Hall as [Hrq Hall]. cbn [fold_left].
  destruct (size_step_preserves dflt db rq Hwf Hinv Hrq)
    as (Hwf' & Hinv' & Hprod).
  rewrite <- Hprod in Hall.
  destruct (IH _ Hwf' Hinv' Hall) as (Hwf'' & Hinv'' & Hprod'').
  repeat split; try assumption; try apply Hwf''. congruence.
Qed.

Lemma size_writes_with_quantity_keep_inventory_witness :
  inventory_ok (size_run unlabelled_defaults stock_db stock_requests) = true.
Proof.
  exact (proj1 (proj2 (size_writes_with_quantity_keep_inventory
                         unlabelled_defaults stock_requests
                         stock_db stock_db_wf eq_refl
                         stock_requests_write_quantity))).
Defined.

(** The variant the check runs against, in a store with distinct product
    keys: the written one, else the stored product the instance refers
    to. *)
Lemma variant_or_instance_stored (db : DB) (i : Size) (attrs : SizeAttrs)
    (p : Product) :
  List.NoDup (map product_id (products db)) -> In p (products db) ->
  product_id p = variant i ->
  SizeSerializer.variant_or_instance db (Some i) attrs
  = ret (match attr_variant attrs with Some w => w | None => p end).
Proof.
  intros Hnd Hin Hid. unfold SizeSerializer.variant_or_instance.
  destruct (attr_variant attrs); [reflexivity|].
  cbn [SizeSerializer.instance_variant]. rewrite <- Hid.
  apply queryset_get_present; assumption.
Qed.

(** The queryset of the check on update, read off the table of sizes. *)
Lemma excluded_sizes_quantity (db : DB) (v : Product) (i : Size) :
  sum (map size_quantity
         (queryset_exclude size_id (SizeSerializer.variant_sizes db v)
            (size_id i)))
  = fold_right Z.add 0
      (map size_quantity
         (List.filter
            (fun s => (variant s =? product_id v)
                      && negb (size_id s =? size_id i))
            (sizes db))).
Proof.
  unfold queryset_exclude, SizeSerializer.variant_sizes.
  rewrite filter_filter_andb. reflexivity.
Qed.

(** C9. On an update, [validate] accepts the attributes unchanged whenever
    the quantity is absent or zero, without any inventory check. It raises
    the inventory ValidationError exactly when a nonzero quantity is
    written and that quantity, added to the quantities of the sizes that
    have the variant and are not the instance being updated, exceeds the
    variant's quantity; the variant is the written one, else the stored
    product the instance refers to. A nonzero quantity within that bound is
    accepted, and [validate] raises nothing else. *)
Theorem SizeSerializer_validate_update :
  forall (db : DB) (i : Size) (p : Product) (attrs : SizeAttrs),
    List.NoDup (map product_id (products db)) ->
    In p (products db) ->
    product_id p = variant i ->
    let v := match attr_variant attrs with Some w => w | None => p end in
    let others :=
      fold_right Z.add 0
        (map size_quantity
           (List.filter
              (fun s => (variant s =? product_id v)
                        && negb (size_id s =? size_id i))
              (sizes db))) in
    ((attr_quantity attrs = None \/ attr_quantity attrs = Some 0) ->
     SizeSerializer.validate db (Some i) attrs = ret attrs)
    /\ (SizeSerializer.validate db (Some i) attrs
        = raise (ValidationError
                   "You cannot have more sizes for a product variant than product variant itself.")
        <-> exists q,
              attr_quantity attrs = Some q /\ q <> 0
              /\ others + q > product_quantity v)
    /\ (forall q,
          attr_quantity attrs = Some q -> q <> 0 ->
          others + q <= product_quantity v ->
          SizeSerializer.validate db (Some i) attrs = ret attrs)
    /\ (forall e,
          SizeSerializer.validate db (Some i) attrs = raise e ->
          e = ValidationError
                "You cannot have more sizes for a product variant than product variant itself.").
Proof.
  intros db i p attrs Hnd Hp Hid v others.
  assert (Hval : SizeSerializer.validate db (Some i) attrs
                 = match attr_quantity attrs with
                   | Some q =>
                       if q =? 0 then ret attrs
                       else if others + q >? product_quantity v
                            then raise (ValidationError
                                          SizeSerializer.inventory_message)
                            else ret attrs
                   | None => ret attrs
                   end).
  { unfold SizeSerializer.validate.
    rewrite (variant_or_instance_stored db i attrs p) by assumption.
    destruct (attr_quantity attrs) as [q|]; [|reflexivity].
    destruct (q =? 0); [reflexivity|]. cbn [bind ret]. fold v.
    rewrite excluded_sizes_quantity. reflexivity. }
  rewrite Hval. clear Hval.
  split; [|split; [|split]].
  - intros [-> | ->]; reflexivity.
  - destruct (attr_quantity attrs) as [q|].
    2:{ split; [discriminate | intros (q & [=] & _)]. }
    destruct (Z.eqb_spec q 0) as [-> | Hne].
    { split; [discriminate | intros (q & [= <-] & Hz & _); lia]. }
    destruct (Z.gtb_spec (others + q) (product_quantity v)) as [Hgt|Hle].
    + split; [|reflexivity]. intros _. exists q.
      repeat split; try assumption; lia.
    + split; [discriminate|]. intros (q' & [= <-] & _ & Hgt). lia.
  - intros q Hq Hne Hle. rewrite Hq.
    destruct (Z.eqb_spec q 0) as [|_]; [reflexivity|].
    destruct (Z.gtb_spec (others + q) (product_quantity v)) as [Hgt|_];
      [lia | reflexivity].
  - intros e. destruct (attr_quantity attrs) as [q|]; [|discriminate].
    destruct (q =? 0); [discriminate|].
    destruct (others + q >? product_quantity v); [|discriminate].
    intros [= <-]. reflexivity.
Qed.

Lemma SizeSerializer_validate_update_witness :
  SizeSerializer.validate stock_db (Some shirt_m)
    (mkSizeAttrs None None (Some 9) None)
  = raise (ValidationError
             "You cannot have more sizes for a product variant than product variant itself.").
Proof.
  refine (proj2 (proj1 (proj2 (SizeSerializer_validate_update stock_db shirt_m
                                 shirt (mkSizeAttrs None None (Some 9) None)
                                 (proj1 stock_db_wf) _ _))) _).
  - cbn. tauto.
  - reflexivity.
  - exists 9. split; [reflexivity|]. split; [discriminate | cbn; lia].
Defined.







(* --------------------------------------------------------------------- *)
(** ** Further properties of vendor creation                              *)
(* --------------------------------------------------------------------- *)

(** A save relates every old row to the row that takes its place. *)
Lemma Forall2_save_row {R : Type} (pk : R -> Z) (P : R -> R -> Prop) (r : R)
    (rows : list R) :
  (forall old, In old rows -> pk old = pk r -> P old r) ->
  (forall old, In old rows -> pk old <> pk r -> P old old) ->
  Forall2 P rows (save_row pk r rows).
Proof.
  unfold save_row. induction rows as [|old rows IH]; intros Hsame Hother;
    cbn [map]; constructor.
  - destruct (Z.eqb_spec (pk old) (pk r)) as [Heq|Hne].
    + apply Hsame; [left; reflexivity | exact Heq].
    + apply Hother; [left; reflexivity | exact Hne].
  - apply IH; intros; [apply Hsame | apply Hother]; try assumption;
      right; assumption.
Qed.

Lemma Forall2_diag {R : Type} (P : R -> R -> Prop) (rows : list R) :
  (forall r, In r rows -> P r r) -> Forall2 P rows rows.
Proof.
  induction rows as [|r rows IH]; intros Hrefl; constructor.
  - apply Hrefl. left; reflexivity.
  - apply IH. intros; apply Hrefl; right; assumption.
Qed.

(** X20. What creating a vendor leaves alone. When the model has the
    [user] column, the caller is a stored user and the field validation
    accepts the body, the request appends one vendor under a key no vendor
    had, leaves products, sizes, orders and the size vocabulary untouched,
    and relates the users row by row: every row keeps its key, email,
    password hash, [is_active] and [is_staff], no row loses [is_vendor],
    and the rows of other users are unchanged. *)
Theorem VendorViewSet_create_frame :
  forall (info : ModelInfo)
         (clean : DB -> gmap string value -> string + gmap string value)
         (u : User) (data vd : gmap string value) (db : DB),
    "user" ∈ columns info ->
    clean db (delete "owner" data) = inr vd ->
    (forall k, k ∈ dom vd -> k ∈ columns info) ->
    List.NoDup (map user_id (users db)) ->
    In u (users db) ->
    exists v db',
      VendorViewSet.create info clean u data db = ret (v, db')
      /\ products db' = products db /\ sizes db' = sizes db
      /\ orders db' = orders db /\ size_chart db' = size_chart db
      /\ vendors db' = vendors db ++ [v]
      /\ ~ In (vendor_id v) (map vendor_id (vendors db))
      /\ Forall2
           (fun r r' =>
              user_id r' = user_id r /\ email r' = email r
              /\ password r' = password r /\ is_active r' = is_active r
              /\ is_staff r' = is_staff r
              /\ (is_vendor r = true -> is_vendor r' = true)
              /\ (user_id r <> user_id u -> r' = r))
           (users db) (users db').
Proof.
  intros info clean u data vd db Hcol Hclean Hkeys Hnd Hin.
  eexists _, _.
  split; [apply (VendorViewSet_create_accepted info clean u data vd);
          assumption|].
  cbv zeta. unfold vendor_created.
  destruct (is_vendor u) eqn:Hflag;
    cbn [products sizes orders size_chart vendors users set_users set_vendors
         vendor_id];
    repeat (split; [reflexivity|]);
    (split; [apply next_pk_fresh|]).
  - apply Forall2_diag. intros r _. tauto.
  - apply Forall2_save_row.
    + intros old Hold Hk.
      assert (old = u) by (eapply NoDup_map_pk_inj; eassumption).
      subst old. cbn. tauto.
    + intros old _ _. tauto.
Qed.

Lemma storefront_validated_columns :
  forall k, k ∈ dom ({[ "name" := VStr "Alice's" ]} : gmap string value) ->
            k ∈ columns vendor_info.
Proof.
  intros k Hk. apply elem_of_dom in Hk as [x Hx].
  apply lookup_singleton_Some in Hx as [<- _].
  apply list_elem_of_In. cbn. tauto.
Defined.

Lemma VendorViewSet_create_frame_witness :
  exists v db',
    VendorViewSet.create vendor_info name_required alice storefront_data
      accounts_db
    = ret (v, db')
    /\ products db' = products accounts_db /\ sizes db' = sizes accounts_db
    /\ orders db' = orders accounts_db
    /\ size_chart db' = size_chart accounts_db
    /\ vendors db' = vendors accounts_db ++ [v]
    /\ ~ In (vendor_id v) (map vendor_id (vendors accounts_db))
    /\ Forall2
         (fun r r' =>
            user_id r' = user_id r /\ email r' = email r
            /\ password r' = password r /\ is_active r' = is_active r
            /\ is_staff r' = is_staff r
            /\ (is_vendor r = true -> is_vendor r' = true)
            /\ (user_id r <> user_id alice -> r' = r))
         (users accounts_db) (users db').
Proof.
  refine (VendorViewSet_create_frame vendor_info name_required alice
            storefront_data {[ "name" := VStr "Alice's" ]} accounts_db
            _ _ storefront_validated_columns accounts_db_user_keys _).
  - apply list_elem_of_In. cbn. tauto.
  - reflexivity.
  - cbn. tauto.
Defined.

(** X21. The keyword of [perform_create] must be a column: against a Vendor
    model that names the relation [owner], as the serializer's [source]
    reads it, and has no [user] column, no create request stores a vendor,
    whoever calls and whatever the body and the field validation. A body
    that validation accepts ends in a [TypeError]; a body that it rejects
    ends in the ValidationError of the rejection. *)
Theorem VendorViewSet_create_needs_user_column :
  forall (info : ModelInfo)
         (clean : DB -> gmap string value -> string + gmap string value)
         (u : User) (data : gmap string value) (db : DB),
    "user" ∉ columns info ->
    is_ok (VendorViewSet.create info clean u data db) = false
    /\ VendorViewSet.create info clean u data db
       = match clean db (delete "owner" data) with
         | inr _ =>
             raise (TypeError "Vendor() got unexpected keyword arguments")
         | inl msg => raise (ValidationError msg)
         end.
Proof.
  intros info clean u data db Hcol.
  assert (H : VendorViewSet.create info clean u data db
              = match clean db (delete "owner" data) with
                | inr _ =>
                    raise (TypeError "Vendor() got unexpected keyword arguments")
                | inl msg => raise (ValidationError msg)
                end).
  { unfold VendorViewSet.create, VendorSerializer.to_internal_value.
    destruct (clean db (delete "owner" data)) as [msg|vd]; [reflexivity|].
    cbn [bind ret]. apply VendorViewSet_create_unknown_keyword. exact Hcol. }
  rewrite H. split; [|reflexivity].
  destruct (clean db (delete "owner" data)); reflexivity.
Qed.

Lemma vendor_info_owner_has_no_user : "user" ∉ columns vendor_info_owner.
Proof.
  intros H. apply list_elem_of_In in H. cbn in H.
  destruct H as [H | [H | [H | []]]]; discriminate H.
Defined.

Lemma VendorViewSet_create_needs_user_column_witness :
  is_ok (VendorViewSet.create vendor_info_owner name_required alice
           storefront_data accounts_db) = false
  /\ VendorViewSet.create vendor_info_owner name_required alice
       storefront_data accounts_db
     = match name_required accounts_db (delete "owner" storefront_data) with
       | inr _ =>
           raise (TypeError "Vendor() got unexpected keyword arguments")
       | inl msg => raise (ValidationError msg)
       end.
Proof.
  exact (VendorViewSet_create_needs_user_column vendor_info_owner
           name_required alice storefront_data accounts_db
           vendor_info_owner_has_no_user).
Defined.

(* --------------------------------------------------------------------- *)
(** ** Retrieving available products                                      *)
(* --------------------------------------------------------------------- *)

(** X22. An available stored Product is retrievable by every caller: the
    answer is 200 with its default representation, which holds the keys
    [id, name, brand, price, is_available, vendor] and neither the
    description nor the quantity, and the store is unchanged. *)
Theorem ProductViewSet_retrieve_available :
  forall (chp : permission -> Caller -> bool)
         (chop : permission -> Caller -> Product -> bool)
         (c : Caller) (db : DB) (p : Product),
    List.NoDup (map product_id (products db)) ->
    In p (products db) ->
    is_available p = true ->
    ProductViewSet.dispatch chp ARetrieve c
      (ProductViewSet.retrieve chp chop c (product_id p)) db
    = (ret (mkResponse 200
              (VDict [("id", VInt (product_id p)); ("name", VStr (name p));
                      ("brand", VStr (brand p)); ("price", VInt (price p));
                      ("is_available", VBool true);
                      ("vendor", VInt (vendor p))])), db).
Proof.
  intros chp chop c db p Hnd Hin Hav.
  unfold ProductViewSet.dispatch, dispatch, ProductViewSet.retrieve,
    retrieve, get_object, check_permissions, check_object_permissions.
  cbn [ProductViewSet.get_permissions forallb has_permission
       has_object_permission andb bind ret].
  unfold ProductViewSet.queryset.
  rewrite get_object_or_404_present;
    [| apply NoDup_map_filter; exact Hnd
     | apply filter_In; split; assumption].
  cbn [bind ret]. rewrite ProductSerializer_default_data.
  unfold product_representation. rewrite Hav. reflexivity.
Qed.

Lemma ProductViewSet_retrieve_available_witness :
  ProductViewSet.dispatch (fun _ _ => false) ARetrieve None
    (ProductViewSet.retrieve (fun _ _ => false) (fun _ _ _ => false) None 2)
    catalogue_db
  = (ret (mkResponse 200
            (VDict [("id", VInt 2); ("name", VStr "Scarf");
                    ("brand", VStr "Acme"); ("price", VInt 999);
                    ("is_available", VBool true); ("vendor", VInt 1)])),
     catalogue_db).
Proof.
  refine (ProductViewSet_retrieve_available (fun _ _ => false)
            (fun _ _ _ => false) None catalogue_db scarf
            catalogue_db_product_keys _ _).
  - cbn. tauto.
  - reflexivity.
Defined.
